(** * WHOIS lookup: transport, server resolution and referral following

    A shallow embedding of the two command-line programs of the repository,
    [who_is_CLI.py] and [whois_cli.py].  Both contain the same three core
    functions ([whois_query_server], [find_whois_server_for_tld],
    [smart_whois]) and a [main] loop; where the two files differ the
    definitions below take a [variant] argument.

    Python values are modelled as follows.
    - [str]  : a sequence of Unicode code points, [list Z];
    - [bytes]: a sequence of octets, [list Z];
    - an exception is represented by what [str(e)] yields;
    - the result dictionary built by [smart_whois] has a fixed set of keys
      and is a record of optional fields;
    - the network, the optional [whois] package, the file system and the
      interpreter's Unicode tables are supplied by a [runtime] record. *)

From Stdlib Require Import ZArith List Bool String Ascii QArith Lia.
Import ListNotations.
Close Scope Q_scope.
Open Scope Z_scope.

(** ** Strings *)

Definition str := list Z.
Definition bytes := list Z.

(** A string literal of the source, as code points. *)
Definition py (s : string) : str :=
  map (fun a => Z.of_nat (nat_of_ascii a)) (list_ascii_of_string s).

Fixpoint str_eqb (a b : str) : bool :=
  match a, b with
  | [], [] => true
  | x :: a', y :: b' => (x =? y) && str_eqb a' b'
  | _, _ => false
  end.

Fixpoint drop_while (p : Z -> bool) (s : str) : str :=
  match s with
  | [] => []
  | c :: s' => if p c then drop_while p s' else s
  end.

Fixpoint take_while (p : Z -> bool) (s : str) : str :=
  match s with
  | [] => []
  | c :: s' => if p c then c :: take_while p s' else []
  end.

(** [s.split(sep)] for a one-character separator. *)
Fixpoint split (sep : Z) (s : str) : list str :=
  match s with
  | [] => [[]]
  | c :: s' =>
      if c =? sep then [] :: split sep s'
      else match split sep s' with
           | [] => [[c]]
           | l :: ls => (c :: l) :: ls
           end
  end.

(** [s.endswith(suffix)]. *)
Definition endswith (s suffix : str) : bool :=
  (List.length suffix <=? List.length s)%nat
  && str_eqb (skipn (List.length s - List.length suffix) s) suffix.

(** Truth value of an optional string: [None] and [""] are false. *)
Definition truthy (o : option str) : bool :=
  match o with
  | Some (_ :: _) => true
  | _ => false
  end.

(** ** Exceptions and results *)

Inductive exn := Exn (msg : str).

Definition exn_str (e : exn) : str := let 'Exn m := e in m.

Inductive result (A : Type) :=
| Ok (a : A)
| Raise (e : exn).
Arguments Ok {A} a.
Arguments Raise {A} e.

(** ** The UTF-8 codec

    [bytes.decode('utf-8', errors=...)] and [str.encode('utf-8', errors=...)]
    with the three standard error handlers.  A malformed subsequence is the
    longest prefix of a well-formed sequence that the input offers (at least
    one octet); decoding resumes at the octet that follows it. *)

Inductive errors := Strict | Ignore | Replace.

Definition in_range (lo hi b : Z) : bool := (lo <=? b) && (b <=? hi).

Definition cont (b : Z) : bool := in_range 0x80 0xBF b.

(** Is [c] a Unicode scalar value (a code point that is not a surrogate)? *)
Definition scalar (c : Z) : bool :=
  in_range 0 0xD7FF c || in_range 0xE000 0x10FFFF c.

Definition UnicodeDecodeError : exn :=
  Exn (py "'utf-8' codec can't decode bytes").
Definition UnicodeEncodeError : exn :=
  Exn (py "'utf-8' codec can't encode characters").

Definition emit {A} (c : A) (k : result (list A)) : result (list A) :=
  match k with
  | Ok s => Ok (c :: s)
  | Raise e => Raise e
  end.

Definition emits {A} (cs : list A) (k : result (list A)) : result (list A) :=
  match k with
  | Ok s => Ok (cs ++ s)
  | Raise e => Raise e
  end.

(** What the decoder does with one malformed subsequence; [k] is the decoding
    of the input after it. *)
Definition decode_error (h : errors) (k : result str) : result str :=
  match h with
  | Strict => Raise UnicodeDecodeError
  | Ignore => k
  | Replace => emit 0xFFFD k
  end.

(** Bounds on the second octet of a three- or four-octet sequence. *)
Definition second_lo (b0 : Z) : Z :=
  if b0 =? 0xE0 then 0xA0 else if b0 =? 0xF0 then 0x90 else 0x80.
Definition second_hi (b0 : Z) : Z :=
  if b0 =? 0xED then 0x9F else if b0 =? 0xF4 then 0x8F else 0xBF.

(** One step of the decoder: the input is [b0 :: t0] and [rest] decodes what
    remains after the sequence (or the malformed subsequence) that [b0]
    starts. *)
Definition decode_next (h : errors) (rest : bytes -> result str)
    (b0 : Z) (t0 : bytes) : result str :=
  if in_range 0 0x7F b0 then emit b0 (rest t0)
  else if in_range 0xC2 0xDF b0 then
    match t0 with
    | [] => decode_error h (Ok [])
    | b1 :: t1 =>
      if cont b1
      then emit ((b0 - 0xC0) * 64 + (b1 - 0x80)) (rest t1)
      else decode_error h (rest t0)
    end
  else if in_range 0xE0 0xEF b0 then
    match t0 with
    | [] => decode_error h (Ok [])
    | b1 :: t1 =>
      if in_range (second_lo b0) (second_hi b0) b1 then
        match t1 with
        | [] => decode_error h (Ok [])
        | b2 :: t2 =>
          if cont b2
          then emit ((b0 - 0xE0) * 4096 + (b1 - 0x80) * 64 + (b2 - 0x80))
                    (rest t2)
          else decode_error h (rest t1)
        end
      else decode_error h (rest t0)
    end
  else if in_range 0xF0 0xF4 b0 then
    match t0 with
    | [] => decode_error h (Ok [])
    | b1 :: t1 =>
      if in_range (second_lo b0) (second_hi b0) b1 then
        match t1 with
        | [] => decode_error h (Ok [])
        | b2 :: t2 =>
          if cont b2 then
            match t2 with
            | [] => decode_error h (Ok [])
            | b3 :: t3 =>
              if cont b3
              then emit ((b0 - 0xF0) * 262144 + (b1 - 0x80) * 4096
                         + (b2 - 0x80) * 64 + (b3 - 0x80))
                        (rest t3)
              else decode_error h (rest t2)
            end
          else decode_error h (rest t1)
        end
      else decode_error h (rest t0)
    end
  else decode_error h (rest t0).

Fixpoint utf8_decode (h : errors) (bs : bytes) : result str :=
  match bs with
  | [] => Ok []
  | b0 :: t0 => decode_next h (utf8_decode h) b0 t0
  end.

(** The octets of one scalar value; [None] for a code point that UTF-8 does
    not encode (a surrogate). *)
Definition utf8_encode_char (c : Z) : option bytes :=
  if in_range 0 0x7F c then Some [c]
  else if in_range 0x80 0x7FF c then
    Some [0xC0 + c / 64; 0x80 + c mod 64]
  else if in_range 0x800 0xD7FF c || in_range 0xE000 0xFFFF c then
    Some [0xE0 + c / 4096; 0x80 + (c / 64) mod 64; 0x80 + c mod 64]
  else if in_range 0x10000 0x10FFFF c then
    Some [0xF0 + c / 262144; 0x80 + (c / 4096) mod 64;
          0x80 + (c / 64) mod 64; 0x80 + c mod 64]
  else None.

Fixpoint utf8_encode (h : errors) (s : str) : result bytes :=
  match s with
  | [] => Ok []
  | c :: s' =>
    match utf8_encode_char c with
    | Some bs => emits bs (utf8_encode h s')
    | None =>
      match h with
      | Strict => Raise UnicodeEncodeError
      | Ignore => utf8_encode h s'
      | Replace => emit 0x3F (utf8_encode h s')
      end
    end
  end.

(** A byte sequence is valid UTF-8 when it is the encoding of a sequence of
    scalar values. *)
Definition valid_utf8 (bs : bytes) : Prop :=
  exists s, forallb scalar s = true /\ utf8_encode Strict s = Ok bs.

(** ** The surroundings of the program *)

(** One call of [whois_query_server]: the query text, the host and port
    connected to, the socket timeout, and the octets of the query line that
    [sendall] is given.  A request records the call, whatever becomes of the
    connection: when [connect] fails nothing has gone on the wire. *)
Record request := {
  rq_query : str;
  rq_server : str;
  rq_port : Z;
  rq_timeout : Q;
  rq_payload : bytes
}.

(** What the peer does on one connection: [connect] and [sendall] succeed or
    raise, and [incoming] lists the outcomes of the successive [recv] calls;
    when the list is exhausted the peer has closed the connection and [recv]
    returns the empty bytes object.  Each chunk holds at most [BUFFER_SIZE]
    octets. *)
Record connection := {
  connect_error : option exn;
  sendall_error : option exn;
  incoming : list (result bytes)
}.

(** The dictionary [python-whois] produces: keys with rendered values. *)
Definition parsed_dict := list (str * str).

Record runtime := {
  (** [Py_UNICODE_ISSPACE], used by [str.strip] and by the classes [\s] and
      [\S] of [re]. *)
  isspace : Z -> bool;
  (** [str.lower]. *)
  lower : str -> str;
  (** Does the subject character match the pattern character under
      [re.IGNORECASE]? *)
  ignorecase_eq : Z -> Z -> bool;
  (** Whether [import whois] succeeded, and [pywhois.whois] with the
      attribute dictionary of its result. *)
  HAVE_PYWHOIS : bool;
  pywhois_whois : str -> result parsed_dict;
  (** [str(d)] for such a dictionary. *)
  dict_str : parsed_dict -> str;
  (** The peer's behaviour for a request, given the requests made so far. *)
  peer : list request -> request -> connection;
  (** The lines of a text file, each with its line terminator. *)
  read_lines : str -> result (list str)
}.

Definition DEFAULT_WHOIS_PORT : Z := 43.
Definition BUFFER_SIZE : Z := 4096.
Definition DEFAULT_TIMEOUT : Q := (8 # 1)%Q.

Definition CRLF : str := [13; 10].
Definition IANA : str := py "whois.iana.org".
Definition VERISIGN : str := py "whois.verisign-grs.com".
Definition PANDI : str := py "whois.pandi.or.id".

(** The two source files. *)
Inductive variant := who_is_CLI | whois_cli.

(** ** Computations that query the network and may raise

    The state is the list of requests issued so far, oldest first. *)

Definition M (A : Type) := list request -> result A * list request.

Definition ret {A} (a : A) : M A := fun tr => (Ok a, tr).

Definition bind {A B} (m : M A) (f : A -> M B) : M B :=
  fun tr =>
    match m tr with
    | (Ok a, tr') => f a tr'
    | (Raise e, tr') => (Raise e, tr')
    end.

(** [try: m  except Exception as e: handler e]. *)
Definition try_except {A} (m : M A) (handler : exn -> M A) : M A :=
  fun tr =>
    match m tr with
    | (Ok a, tr') => (Ok a, tr')
    | (Raise e, tr') => handler e tr'
    end.

Notation "x <- m ;; k" := (bind m (fun x => k))
  (at level 61, m at next level, right associativity).

(** The result dictionary of [smart_whois].  The keys [query], [server_used],
    [raw] and [error] are always present and [None] is Python's [None]; for
    the other keys [None] (or the empty list) means that the key is absent. *)
Record LookupResult := {
  query : str;
  server_used : option str;
  raw : option str;
  error : option str;
  parsed : option parsed_dict;
  raw_follow : option str;
  server_used_follow : option str;
  notes : list str
}.

Definition set_server_used (out : LookupResult) (v : option str) :=
  {| query := query out; server_used := v; raw := raw out;
     error := error out; parsed := parsed out; raw_follow := raw_follow out;
     server_used_follow := server_used_follow out; notes := notes out |}.

Definition set_raw (out : LookupResult) (v : option str) :=
  {| query := query out; server_used := server_used out; raw := v;
     error := error out; parsed := parsed out; raw_follow := raw_follow out;
     server_used_follow := server_used_follow out; notes := notes out |}.

Definition set_error (out : LookupResult) (v : option str) :=
  {| query := query out; server_used := server_used out; raw := raw out;
     error := v; parsed := parsed out; raw_follow := raw_follow out;
     server_used_follow := server_used_follow out; notes := notes out |}.

Definition set_parsed (out : LookupResult) (v : option parsed_dict) :=
  {| query := query out; server_used := server_used out; raw := raw out;
     error := error out; parsed := v; raw_follow := raw_follow out;
     server_used_follow := server_used_follow out; notes := notes out |}.

Definition set_raw_follow (out : LookupResult) (v : option str) :=
  {| query := query out; server_used := server_used out; raw := raw out;
     error := error out; parsed := parsed out; raw_follow := v;
     server_used_follow := server_used_follow out; notes := notes out |}.

Definition set_server_used_follow (out : LookupResult) (v : option str) :=
  {| query := query out; server_used := server_used out; raw := raw out;
     error := error out; parsed := parsed out; raw_follow := raw_follow out;
     server_used_follow := v; notes := notes out |}.

(** [out.setdefault("notes", []).append(note)]. *)
Definition add_note (out : LookupResult) (note : str) :=
  {| query := query out; server_used := server_used out; raw := raw out;
     error := error out; parsed := parsed out; raw_follow := raw_follow out;
     server_used_follow := server_used_follow out;
     notes := notes out ++ [note] |}.

Section Program.

Variable R : runtime.

(** ** String operations that depend on the Unicode tables *)

(** [s.strip()]. *)
Definition strip (s : str) : str :=
  rev (drop_while (isspace R) (rev (drop_while (isspace R) s))).

(** The literal part of a pattern matched at the start of [text], ignoring
    case; the result is what follows it. *)
Fixpoint match_literal (pat text : str) : option str :=
  match pat, text with
  | [], _ => Some text
  | p :: pat', c :: text' =>
      if ignorecase_eq R p c then match_literal pat' text' else None
  | _ :: _, [] => None
  end.

(** The pattern [lit\s*(\S+)] matched at the start of [text]: group 1.  Both
    repetitions are greedy: the white space after the literal is skipped
    (line breaks included) and the group is the run of other characters that
    follows, which must not be empty. *)
Definition match_here (lit text : str) : option str :=
  match match_literal lit text with
  | None => None
  | Some after =>
      match take_while (fun c => negb (isspace R c))
                       (drop_while (isspace R) after) with
      | [] => None
      | tok => Some tok
      end
  end.

(** [re.search(lit + r"\s*(\S+)", text, re.IGNORECASE)]: group 1 of the
    leftmost match. *)
Fixpoint re_search (lit text : str) : option str :=
  match match_here lit text with
  | Some tok => Some tok
  | None =>
      match text with
      | [] => None
      | _ :: text' => re_search lit text'
      end
  end.

(** ** Transport *)

Definition mk_request (query server : str) (port : Z) (timeout : Q)
    (payload : bytes) : request :=
  {| rq_query := query; rq_server := server; rq_port := port;
     rq_timeout := timeout; rq_payload := payload |}.

(** The [while True] loop around [s.recv]. *)
Fixpoint recv_all (incoming : list (result bytes)) (data_parts : list bytes)
    : result (list bytes) :=
  match incoming with
  | [] => Ok data_parts
  | Raise e :: _ => Raise e
  | Ok [] :: _ => Ok data_parts
  | Ok chunk :: later => recv_all later (data_parts ++ [chunk])
  end.

Definition whois_query_server (query server : str) (port : Z) (timeout : Q)
    : M str :=
  fun tr =>
    match utf8_encode Ignore (query ++ CRLF) with
    | Raise e => (Raise e, tr)
    | Ok payload =>
      let rq := mk_request query server port timeout payload in
      let c := peer R tr rq in
      (match connect_error c with
       | Some e => Raise e
       | None =>
         match sendall_error c with
         | Some e => Raise e
         | None =>
           match recv_all (incoming c) [] with
           | Raise e => Raise e
           | Ok data_parts => utf8_decode Ignore (List.concat data_parts)
           end
         end
       end, tr ++ [rq])
    end.

(** ** Server discovery *)

Definition find_whois_server_for_tld (tld : str) (timeout : Q)
    : M (option str) :=
  r <- try_except
         (resp <- whois_query_server tld IANA DEFAULT_WHOIS_PORT timeout ;;
          ret (Some resp))
         (fun _ => ret None) ;;
  match r with
  | None => ret None
  | Some resp =>
      match re_search (py "whois:") resp with
      | Some g => ret (Some (strip g))
      | None => ret None
      end
  end.

(** ** The lookup *)

(** How the block that tries [python-whois] ends: with [return out], or by
    falling through to the raw query with the dictionary built so far. *)
Inductive shortcut :=
| Return (out : LookupResult)
| Continue (out : LookupResult).

Definition is_none {A} (o : option A) : bool :=
  match o with None => true | Some _ => false end.

(** [if HAVE_PYWHOIS and server is None: ...].  Only [who_is_CLI.py] stores
    [str(d)] under [raw]. *)
Definition try_pywhois (v : variant) (domain : str) (server : option str)
    (out : LookupResult) : shortcut :=
  if HAVE_PYWHOIS R && is_none server then
    match pywhois_whois R domain with
    | Ok d =>
        let out := set_server_used out (Some (py "python-whois")) in
        let out := match v with
                   | who_is_CLI => set_raw out (Some (dict_str R d))
                   | whois_cli => out
                   end in
        Return (set_parsed out (Some d))
    | Raise e =>
        Continue (set_error out (Some (py "python-whois failed: " ++ exn_str e)))
    end
  else Continue out.

(** The test that guards discovery: [server_to_use is None] in
    [who_is_CLI.py], [not server_to_use] in [whois_cli.py]. *)
Definition no_override (v : variant) (server : option str) : bool :=
  match v with
  | who_is_CLI => is_none server
  | whois_cli => negb (truthy server)
  end.

(** The server chosen when discovery gave nothing. *)
Definition static_fallback (v : variant) (domain tld : str) : str :=
  if str_eqb tld (py "com") || str_eqb tld (py "net") then VERISIGN
  else
    match v with
    | who_is_CLI => IANA
    | whois_cli =>
        if str_eqb tld (py "id") || endswith domain (py ".sch.id")
        then PANDI else IANA
    end.

(** The body of the test on [server_to_use]: the server for a domain when
    the caller named none. *)
Definition discover (v : variant) (domain : str) (timeout : Q) : M str :=
  let parts := split 46 (lower R domain) in
  if (List.length parts <? 2)%nat then ret IANA
  else
    let tld := last parts [] in
    srv <- find_whois_server_for_tld tld timeout ;;
    match srv with
    | Some (c :: s) => ret (c :: s)
    | _ => ret (static_fallback v domain tld)
    end.

(** The block of [smart_whois] that computes [server_to_use]. *)
Definition resolve_server (v : variant) (domain : str) (server : option str)
    (timeout : Q) : M str :=
  match server, no_override v server with
  | Some s, false => ret s
  | _, _ => discover v domain timeout
  end.

Definition new_result (domain : str) : LookupResult :=
  {| query := domain; server_used := None; raw := None; error := None;
     parsed := None; raw_follow := None; server_used_follow := None;
     notes := [] |}.

(** Nothing in the outer [try] block can raise once the primary query has
    returned: the follow-up query has its own handler. *)
Definition smart_whois (v : variant) (domain : str) (server : option str)
    (port : Z) (timeout : Q) : M LookupResult :=
  let domain := strip domain in
  let out := new_result domain in
  match try_pywhois v domain server out with
  | Return out => ret out
  | Continue out =>
    server_to_use <- resolve_server v domain server timeout ;;
    let out := set_server_used out (Some server_to_use) in
    try_except
      (raw <- whois_query_server domain server_to_use port timeout ;;
       let out := set_raw out (Some raw) in
       match re_search (py "Whois Server:") raw with
       | Some g =>
           let ref := strip g in
           if truthy (Some ref) && negb (str_eqb ref server_to_use) then
             try_except
               (raw2 <- whois_query_server domain ref port timeout ;;
                let out := set_raw_follow out (Some raw2) in
                ret (set_server_used_follow out (Some ref)))
               (fun e =>
                  ret (add_note out
                         (py "follow referral failed: " ++ exn_str e)))
           else ret out
       | None => ret out
       end)
      (fun exc => ret (set_error out (Some (exn_str exc))))
  end.

(** ** The command line *)

Inductive output_format := text | json.

Record Args := {
  arg_domains : list str;
  arg_server : option str;
  arg_port : Z;
  arg_timeout : Q;
  arg_output : output_format;
  arg_batch : option str;
  arg_quiet : bool;
  arg_no_referral : bool
}.

Definition is_text (o : output_format) : bool :=
  match o with text => true | json => false end.

Definition startswith (s prefix : str) : bool :=
  str_eqb (firstn (List.length prefix) s) prefix.

Definition load_batch (file_path : str) : result (list str) :=
  match read_lines R file_path with
  | Raise e => Raise e
  | Ok lines =>
      Ok (map strip
            (filter (fun ln => truthy (Some (strip ln))
                               && negb (startswith ln (py "#")))
                    lines))
  end.

(** What [main] writes, one item per [print] call or group of calls. *)
Inductive printed :=
| Banner
| Stderr (msg : str)
| QuietRaw (r : option str)
| Rule
| DomainLine (d : str)
| ServerUsed (s : option str)
| ReferralServerUsed (s : str)
| ErrorLine (e : str)
| ParsedInfo (d : parsed_dict)
| RawWhois (r : str)
| RawWhoisFollow (r : str)
| JsonDump (results : list LookupResult).

Definition when_set {A} (o : option str) (f : str -> A) : list A :=
  match o with
  | Some (c :: s) => [f (c :: s)]
  | _ => []
  end.

(** The body of [if args.output == "text":]. *)
Definition render_text (v : variant) (d : str) (res : LookupResult)
    : list printed :=
  [Rule; DomainLine d; ServerUsed (server_used res)]
  ++ when_set (server_used_follow res) ReferralServerUsed
  ++ match v with
     | who_is_CLI =>
         when_set (error res) ErrorLine ++ when_set (raw res) RawWhois
     | whois_cli =>
         if truthy (error res) then when_set (error res) ErrorLine
         else match parsed res with
              | Some (kv :: d') => [ParsedInfo (kv :: d')]
              | _ => when_set (raw res) RawWhois
              end
     end
  ++ when_set (raw_follow res) RawWhoisFollow
  ++ [Rule].

(** [res.pop("raw_follow", None); res.pop("server_used_follow", None)]. *)
Definition pop_referral (res : LookupResult) : LookupResult :=
  set_server_used_follow (set_raw_follow res None) None.

(** The [for d in domains] loop; [results] and [out] are the results
    collected and the items written so far.  Only [who_is_CLI.py] looks at
    [args.quiet] and [args.no_referral]. *)
Fixpoint lookup_all (v : variant) (args : Args) (ds : list str)
    (results : list LookupResult) (out : list printed)
    : M (list LookupResult * list printed) :=
  match ds with
  | [] => ret (results, out)
  | d :: ds' =>
      res <- smart_whois v d (arg_server args) (arg_port args)
                         (arg_timeout args) ;;
      match v with
      | who_is_CLI =>
          if arg_quiet args && is_text (arg_output args) then
            lookup_all v args ds' results (out ++ [QuietRaw (raw res)])
          else
            let res := if arg_no_referral args then pop_referral res
                       else res in
            lookup_all v args ds' (results ++ [res])
              (if is_text (arg_output args)
               then out ++ render_text v d res else out)
      | whois_cli =>
          lookup_all v args ds' (results ++ [res])
            (if is_text (arg_output args)
             then out ++ render_text v d res else out)
      end
  end.

(** [main] after [parse_args] has returned [args]: the items handed to
    [print], in order, and the exit status.  Writing is taken to succeed;
    a stream that cannot encode an item makes [print] raise in Python, which
    ends the run at that item. *)
Definition main (v : variant) (args : Args) : M (list printed * Z) :=
  let out := [Banner] in
  match (if truthy (arg_batch args)
         then match arg_batch args with
              | Some f => load_batch f
              | None => Ok []
              end
         else Ok []) with
  | Raise e =>
      ret (out ++ [Stderr (py "Failed to read batch file: " ++ exn_str e)], 2)
  | Ok more =>
      match arg_domains args ++ more with
      | [] =>
          ret (out ++ [Stderr (py "No domains specified. Use --help for usage.")],
               1)
      | domains =>
          r <- lookup_all v args domains [] out ;;
          let '(results, out) := r in
          ret (if is_text (arg_output args) then out
               else out ++ [JsonDump results], 0)
      end
  end.

End Program.

(** ** A concrete runtime for examples

    The Unicode tables restricted to what they do on ASCII text, no
    [python-whois] by default, and a network given by a table of peers. *)

Definition ascii_lower_char (c : Z) : Z :=
  if in_range 65 90 c then c + 32 else c.

Definition ascii_lower (s : str) : str := map ascii_lower_char s.

Definition ascii_ignorecase_eq (p c : Z) : bool :=
  ascii_lower_char p =? ascii_lower_char c.

(** The white-space characters of the Unicode database. *)
Definition py_isspace (c : Z) : bool :=
  in_range 0x09 0x0D c || in_range 0x1C 0x20 c || (c =? 0x85) || (c =? 0xA0)
  || (c =? 0x1680) || in_range 0x2000 0x200A c || (c =? 0x2028)
  || (c =? 0x2029) || (c =? 0x202F) || (c =? 0x205F) || (c =? 0x3000).

(** The line feed stands for itself in the literals below. *)
Definition LF : str := [10].

(** A peer that accepts the connection, sends [body] in one chunk and
    closes. *)
Definition replies (body : str) : connection :=
  {| connect_error := None; sendall_error := None;
     incoming := match utf8_encode Ignore body with
                 | Ok bs => [Ok bs]
                 | Raise _ => []
                 end |}.

(** A peer that sends the given octets. *)
Definition replies_bytes (bs : bytes) : connection :=
  {| connect_error := None; sendall_error := None; incoming := [Ok bs] |}.

Definition refuses : connection :=
  {| connect_error := Some (Exn (py "[Errno 111] Connection refused"));
     sendall_error := None; incoming := [] |}.

Definition times_out : connection :=
  {| connect_error := None; sendall_error := None;
     incoming := [Raise (Exn (py "timed out"))] |}.

Fixpoint peer_table (hosts : list (str * connection)) (rq : request)
    : connection :=
  match hosts with
  | [] => refuses
  | (host, c) :: hosts' =>
      if str_eqb host (rq_server rq) then c else peer_table hosts' rq
  end.

Definition example_runtime (hosts : list (str * connection))
    (pywhois : option (str -> result parsed_dict)) : runtime :=
  {| isspace := py_isspace;
     lower := ascii_lower;
     ignorecase_eq := ascii_ignorecase_eq;
     HAVE_PYWHOIS := match pywhois with Some _ => true | None => false end;
     pywhois_whois := match pywhois with
                      | Some f => f
                      | None => fun _ => Raise (Exn [])
                      end;
     dict_str := fun d => List.concat (map (fun kv => fst kv ++ py ": " ++ snd kv ++ LF) d);
     peer := fun _ => peer_table hosts;
     read_lines := fun _ => Raise (Exn (py "[Errno 2] No such file or directory")) |}.

(** The request that [whois_query_server query server port timeout] puts on
    the network. *)
Definition request_for (query server : str) (port : Z) (timeout : Q)
    : request :=
  mk_request query server port timeout
    match utf8_encode Ignore (query ++ CRLF) with
    | Ok payload => payload
    | Raise _ => []
    end.

(** A string that holds no white space. *)
Definition no_space (R : runtime) (s : str) : Prop :=
  forallb (fun c => negb (isspace R c)) s = true.


(** ** Statements of the specification that are compared with the code *)

Section Specified.

Variable R : runtime.

(** The referral condition in the specification's words: some line of the
    response matches the referral pattern with a token other than the server
    just queried. *)
Definition some_line_refers_elsewhere (raw0 s : str) : Prop :=
  exists line tok,
    In line (split 10 raw0) /\
    re_search R (py "Whois Server:") line = Some tok /\ tok <> s.

(** The referral rule in the specification's words: after a successful
    primary query a further query is issued exactly when some line refers
    elsewhere. *)
Definition referral_rule_as_specified (v : variant) (domain : str)
    (server : option str) (port : Z) (timeout : Q) (tr : list request)
    : Prop :=
  forall out0 s tr1 raw0 tr2,
    try_pywhois R v (strip R domain) server (new_result (strip R domain))
      = Continue out0 ->
    resolve_server R v (strip R domain) server timeout tr = (Ok s, tr1) ->
    whois_query_server R (strip R domain) s port timeout tr1
      = (Ok raw0, tr2) ->
    (snd (smart_whois R v domain server port timeout tr) <> tr2
     <-> some_line_refers_elsewhere raw0 s).

(** The static fallback in the specification's words: [com] and [net] go to
    the Verisign server, every other top-level domain to the root
    registry. *)
Definition static_fallback_as_specified (v : variant) (domain : str)
    (server : option str) (timeout : Q) (tr : list request) : Prop :=
  forall tr1,
    no_override v server = true ->
    (2 <= List.length (split 46 (lower R domain)))%nat ->
    find_whois_server_for_tld R (last (split 46 (lower R domain)) []) timeout tr
      = (Ok None, tr1) ->
    resolve_server R v domain server timeout tr
    = (Ok (if str_eqb (last (split 46 (lower R domain)) []) (py "com")
              || str_eqb (last (split 46 (lower R domain)) []) (py "net")
           then VERISIGN else IANA), tr1).

(** Decoding in the specification's words: the octets received are decoded
    with malformed sequences replaced. *)
Definition decodes_with_replacement (query server : str) (port : Z)
    (timeout : Q) (tr : list request) : Prop :=
  forall data_parts,
    connect_error (peer R tr (request_for query server port timeout)) = None ->
    sendall_error (peer R tr (request_for query server port timeout)) = None ->
    recv_all (incoming (peer R tr (request_for query server port timeout))) []
      = Ok data_parts ->
    fst (whois_query_server R query server port timeout tr)
    = utf8_decode Replace (List.concat data_parts).

(** The invariant of the result in the specification's words: the raw
    response and the error are never both absent. *)
Definition raw_or_error_as_specified (v : variant) (domain : str)
    (server : option str) (port : Z) (timeout : Q) (tr : list request)
    : Prop :=
  forall r tr',
    smart_whois R v domain server port timeout tr = (Ok r, tr') ->
    ~ (raw r = None /\ error r = None).

Definition set_no_referral (args : Args) (b : bool) : Args :=
  {| arg_domains := arg_domains args; arg_server := arg_server args;
     arg_port := arg_port args; arg_timeout := arg_timeout args;
     arg_output := arg_output args; arg_batch := arg_batch args;
     arg_quiet := arg_quiet args; arg_no_referral := b |}.

Definition has_referral (r : LookupResult) : bool :=
  negb (is_none (raw_follow r)) || negb (is_none (server_used_follow r)).

(** Does a written item show a referral field? *)
Definition shows_referral (p : printed) : bool :=
  match p with
  | ReferralServerUsed _ | RawWhoisFollow _ => true
  | JsonDump results => existsb has_referral results
  | _ => false
  end.

(** [--no-referral] in the specification's words: the network calls are
    those made without the flag, and nothing written shows a referral
    field. *)
Definition no_referral_as_specified (v : variant) (args : Args)
    (tr : list request) : Prop :=
  arg_no_referral args = true ->
  snd (main R v args tr) = snd (main R v (set_no_referral args false) tr) /\
  forall out code tr',
    main R v args tr = (Ok (out, code), tr') ->
    existsb shows_referral out = false.

End Specified.

(** ** Example networks *)

Definition example_com : str := py "example.com".
Definition a_example : str := py "a.example".
Definition b_example : str := py "b.example".

(** Server A refers to server B, whose own answer refers to a third
    server. *)
Definition net_referral : runtime :=
  example_runtime
    [(a_example, replies (py "Domain: EXAMPLE.COM" ++ LF
                          ++ py "Whois Server: b.example" ++ LF));
     (b_example, replies (py "Whois Server: c.example" ++ LF))]
    None.

(** The answer of server A names server A first and server B on a later
    line. *)
Definition net_two_lines : runtime :=
  example_runtime
    [(a_example, replies (py "Whois Server: a.example" ++ LF
                          ++ py "Whois Server: b.example" ++ LF));
     (b_example, replies (py "Domain: EXAMPLE.COM" ++ LF))]
    None.

(** No host answers: every connection is refused. *)
Definition net_down : runtime := example_runtime [] None.

(** The root registry answers without a [whois:] line. *)
Definition net_iana_silent : runtime :=
  example_runtime [(IANA, replies (py "% IANA WHOIS server" ++ LF))] None.

Definition example_id : str := py "example.id".
Definition localhost : str := py "localhost".

(** Server A sends an octet that no UTF-8 sequence contains. *)
Definition net_malformed : runtime :=
  example_runtime [(a_example, replies_bytes [0x61; 0xFF; 0x62])] None.

(** [python-whois] is installed and answers with one field. *)
Definition net_pywhois : runtime :=
  example_runtime []
    (Some (fun _ => Ok [(py "domain_name", py "EXAMPLE.COM")])).

(** Server A refers to server B, which does not answer in time. *)
Definition net_referral_times_out : runtime :=
  example_runtime
    [(a_example, replies (py "Whois Server: b.example" ++ LF));
     (b_example, times_out)]
    None.

(** [--no-referral -s a.example example.com], with text output. *)
Definition args_no_referral : Args :=
  {| arg_domains := [example_com]; arg_server := Some a_example;
     arg_port := DEFAULT_WHOIS_PORT; arg_timeout := DEFAULT_TIMEOUT;
     arg_output := text; arg_batch := None; arg_quiet := false;
     arg_no_referral := true |}.

(** The same surroundings with one readable text file. *)
Definition with_file (R : runtime) (path : str) (lines : list str) : runtime :=
  {| isspace := isspace R; lower := lower R;
     ignorecase_eq := ignorecase_eq R; HAVE_PYWHOIS := HAVE_PYWHOIS R;
     pywhois_whois := pywhois_whois R; dict_str := dict_str R;
     peer := peer R;
     read_lines := fun p => if str_eqb p path then Ok lines
                            else read_lines R p |}.

(** The root registry names the registry of [com], whose answer has no
    referral. *)
Definition net_registry : runtime :=
  example_runtime
    [(IANA, replies (py "refer:        whois.verisign-grs.com" ++ LF
                     ++ py "whois:        whois.verisign-grs.com" ++ LF));
     (VERISIGN, replies (py "   Domain Name: EXAMPLE.COM" ++ LF))]
    None.

(** ** Cleaned output of [whois_cli.py] *)

(** The escape sequences that [colorama] puts in [Fore.RED] and
    [Fore.WHITE]. *)
Definition Fore_RED : str := [27; 91; 51; 49; 109].
Definition Fore_WHITE : str := [27; 91; 51; 55; 109].

Section PrintClean.

Variable R : runtime.

(** [re.sub(r'[\r]+', '', raw)]: every carriage return goes. *)
Definition remove_cr (raw : str) : str :=
  filter (fun c => negb (c =? 13)) raw.

(** The pattern [\s*\n+] matched at the start of [s]: the number of
    characters of the match.  [\s*] is greedy and gives characters back
    until a line feed follows; [\n+] then takes the whole run of line
    feeds. *)
Fixpoint blank_run (s : str) : option nat :=
  match s with
  | [] => None
  | c :: s' =>
      match (if isspace R c then blank_run s' else None) with
      | Some n => Some (S n)
      | None =>
          if c =? 10
          then Some (S (List.length (take_while (fun x => x =? 10) s')))
          else None
      end
  end.

(** [re.sub(r'\n\s*\n+', '\n', s)], scanning from the left; [skip] counts
    the characters of [s] that still belong to the match just replaced. *)
Fixpoint collapse_blank (skip : nat) (s : str) : str :=
  match s with
  | [] => []
  | c :: s' =>
      match skip with
      | S k => collapse_blank k s'
      | O =>
          if c =? 10 then
            match blank_run s' with
            | Some n => 10 :: collapse_blank n s'
            | None => c :: collapse_blank 0 s'
            end
          else c :: collapse_blank 0 s'
      end
  end.

(** [print_clean(raw)]: the strings passed to [print], in order. *)
Definition print_clean (raw : str) : list str :=
  match raw with
  | [] => [Fore_RED ++ py "No WHOIS data."]
  | _ =>
      map (fun line => py "  " ++ Fore_WHITE ++ strip R line)
          (split 10 (collapse_blank 0 (strip R (remove_cr raw))))
  end.

(** Does the string hold a character that is not white space? *)
Definition has_nonspace (s : str) : bool :=
  existsb (fun c => negb (isspace R c)) s.

(** Scanning [s] line by line: does every line hold a character that is not
    white space?  [seen] tells whether the current line already does. *)
Fixpoint lines_ok (seen : bool) (s : str) : bool :=
  match s with
  | [] => seen
  | c :: s' =>
      if c =? 10 then seen && lines_ok false s'
      else lines_ok (seen || negb (isspace R c)) s'
  end.

(** [s] is empty or ends with a character that is not white space. *)
Definition ends_ok (s : str) : Prop :=
  s = [] \/ isspace R (last s 0) = false.

(** The white space at the start of [s] holds no line feed and is followed
    by another character. *)
Definition lead (s : str) : Prop :=
  drop_while (isspace R) s <> [] /\
  forallb (fun c => negb (c =? 10)) (take_while (isspace R) s) = true.

End PrintClean.

Definition set_quiet (args : Args) (b : bool) : Args :=
  {| arg_domains := arg_domains args; arg_server := arg_server args;
     arg_port := arg_port args; arg_timeout := arg_timeout args;
     arg_output := arg_output args; arg_batch := arg_batch args;
     arg_quiet := b; arg_no_referral := arg_no_referral args |}.

(** An answer with CR LF line ends, blank lines and indented fields. *)
Definition untidy_answer : str :=
  py "  Domain: X" ++ [13; 10; 13; 10] ++ py "   " ++ [10; 9; 10]
  ++ py " Registrar: Y  " ++ [13; 10] ++ py "End" ++ [10; 10].

(** Server A sends the three octets of the euro sign in two chunks, then a
    line feed, and closes; what the list holds after the empty chunk is
    never read. *)
Definition net_chunked : runtime :=
  example_runtime
    [(a_example,
      {| connect_error := None; sendall_error := None;
         incoming := [Ok [0xE2; 0x82]; Ok [0xAC]; Ok [0x0A]; Ok [];
                      Ok [0x61]] |})]
    None.

(** Server A sends one octet and then the read times out. *)
Definition net_partial : runtime :=
  example_runtime
    [(a_example,
      {| connect_error := None; sendall_error := None;
         incoming := [Ok [0x61]; Raise (Exn (py "timed out")); Ok [0x62]] |})]
    None.

(** ** The ways a lookup ends after the server is resolved

    [out0] is the dictionary when the primary query starts, [s] the
    resolved server and [tr1] the requests made before the primary query. *)
Inductive lookup_end (R : runtime) (d s : str) (port : Z) (timeout : Q)
    (out0 : LookupResult) (tr1 : list request)
    : LookupResult -> list request -> Prop :=
| primary_failed (e : exn) :
    lookup_end R d s port timeout out0 tr1
      (set_error (set_server_used out0 (Some s)) (Some (exn_str e)))
      (tr1 ++ [request_for d s port timeout])
| no_referral (raw0 : str) :
    lookup_end R d s port timeout out0 tr1
      (set_raw (set_server_used out0 (Some s)) (Some raw0))
      (tr1 ++ [request_for d s port timeout])
| referral_followed (raw0 ref raw2 : str) :
    ref <> s -> ref <> [] -> no_space R ref ->
    lookup_end R d s port timeout out0 tr1
      (set_server_used_follow
         (set_raw_follow (set_raw (set_server_used out0 (Some s)) (Some raw0))
            (Some raw2))
         (Some ref))
      (tr1 ++ [request_for d s port timeout; request_for d ref port timeout])
| referral_failed (raw0 ref : str) (e : exn) :
    ref <> s -> ref <> [] -> no_space R ref ->
    lookup_end R d s port timeout out0 tr1
      (add_note (set_raw (set_server_used out0 (Some s)) (Some raw0))
         (py "follow referral failed: " ++ exn_str e))
      (tr1 ++ [request_for d s port timeout; request_for d ref port timeout]).

(** Does a written item show the raw answer of the primary query? *)
Definition shows_raw (p : printed) : bool :=
  match p with
  | RawWhois _ => true
  | _ => false
  end.

(** [python-whois] is installed and fails; the root registry names the
    registry of [com], which answers. *)
Definition net_pywhois_fails : runtime :=
  example_runtime
    [(IANA, replies (py "whois:        whois.verisign-grs.com" ++ LF));
     (VERISIGN, replies (py "   Domain Name: EXAMPLE.COM" ++ LF))]
    (Some (fun _ => Raise (Exn (py "no match")))).

(** ** The command line: the domains of a run *)

(** The domains that the batch file adds, as [main] computes them. *)
Definition batch_domains (R : runtime) (args : Args) : result (list str) :=
  if truthy (arg_batch args)
  then match arg_batch args with
       | Some f => load_batch R f
       | None => Ok []
       end
  else Ok [].

(** A batch file with a comment, a blank line, an indented comment and two
    domains. *)
Definition batch_lines : list str :=
  [py "# domains" ++ LF; LF; py "  # kept" ++ LF; py " example.org " ++ LF;
   py "example.net"].

Definition net_batch : runtime :=
  with_file net_down (py "domains.txt") batch_lines.

Definition args_quiet : Args :=
  {| arg_domains := [example_com; example_id]; arg_server := Some a_example;
     arg_port := 43; arg_timeout := DEFAULT_TIMEOUT; arg_output := text;
     arg_batch := None; arg_quiet := true; arg_no_referral := false |}.

Definition args_missing_batch : Args :=
  {| arg_domains := [example_com]; arg_server := None;
     arg_port := 43; arg_timeout := DEFAULT_TIMEOUT; arg_output := text;
     arg_batch := Some (py "missing.txt"); arg_quiet := false;
     arg_no_referral := false |}.

Definition args_json : Args :=
  {| arg_domains := [example_com]; arg_server := Some a_example;
     arg_port := 43; arg_timeout := DEFAULT_TIMEOUT; arg_output := json;
     arg_batch := None; arg_quiet := false; arg_no_referral := false |}.

(** ** Further statements of the specification, and the loop of [main] *)

(** A failed follow-up in the specification's words: the raw answer stays,
    the failure is a note, and the error field is not set. *)
Definition referral_failure_as_specified (R : runtime) (v : variant)
    (domain : str) (server : option str) (port : Z) (timeout : Q)
    (tr : list request) : Prop :=
  forall out0 s tr1 raw0 tr2 ref e tr3,
    try_pywhois R v (strip R domain) server (new_result (strip R domain))
      = Continue out0 ->
    resolve_server R v (strip R domain) server timeout tr = (Ok s, tr1) ->
    whois_query_server R (strip R domain) s port timeout tr1
      = (Ok raw0, tr2) ->
    re_search R (py "Whois Server:") raw0 = Some ref ->
    ref <> s ->
    whois_query_server R (strip R domain) ref port timeout tr2
      = (Raise e, tr3) ->
    forall r tr',
      smart_whois R v domain server port timeout tr = (Ok r, tr') ->
      raw r = Some raw0 /\ error r = None /\
      notes r = [py "follow referral failed: " ++ exn_str e].

(** [python-whois] is installed and fails; the root registry names server A,
    which refers to server B, which does not answer in time. *)
Definition net_pywhois_referral_fails : runtime :=
  example_runtime
    [(IANA, replies (py "whois:        a.example" ++ LF));
     (a_example, replies (py "Whois Server: b.example" ++ LF));
     (b_example, times_out)]
    (Some (fun _ => Raise (Exn (py "no match")))).

(** The results of the lookups of [ds], one after the other, and the
    requests made when the last one ends. *)
Fixpoint lookups (R : runtime) (v : variant) (server : option str) (port : Z)
    (timeout : Q) (ds : list str) (tr : list request)
    : list LookupResult * list request :=
  match ds with
  | [] => ([], tr)
  | d :: ds' =>
      match smart_whois R v d server port timeout tr with
      | (Ok r, tr1) =>
          let (rs, tr') := lookups R v server port timeout ds' tr1 in
          (r :: rs, tr')
      | (Raise _, tr1) => ([], tr1)
      end
  end.

(** What the loop of [main] appends to [results] for the result of one
    lookup. *)
Definition collected (v : variant) (args : Args) (r : LookupResult)
    : LookupResult :=
  match v with
  | who_is_CLI => if arg_no_referral args then pop_referral r else r
  | whois_cli => r
  end.
(** ** Lemmas on the codec *)

Lemma in_range_true lo hi b : lo <= b <= hi -> in_range lo hi b = true.
Proof. unfold in_range. intros. apply andb_true_intro. split; apply Z.leb_le; lia. Qed.

Lemma in_range_false lo hi b : b < lo \/ hi < b -> in_range lo hi b = false.
Proof.
  unfold in_range. intros [H|H].
  - replace (lo <=? b) with false; [reflexivity|]. symmetry. apply Z.leb_gt. exact H.
  - replace (b <=? hi) with false; [apply andb_false_r|]. symmetry. apply Z.leb_gt. exact H.
Qed.

Lemma in_range_spec lo hi b : in_range lo hi b = true <-> lo <= b <= hi.
Proof.
  unfold in_range. rewrite andb_true_iff, !Z.leb_le. tauto.
Qed.

Lemma utf8_decode_1 h b0 t0 :
  0 <= b0 <= 0x7F ->
  utf8_decode h (b0 :: t0) = emit b0 (utf8_decode h t0).
Proof.
  intros H. cbn [utf8_decode]; unfold decode_next; cbn [utf8_decode]. rewrite (in_range_true 0 0x7F) by exact H. reflexivity.
Qed.

Lemma utf8_decode_2 h b0 b1 t1 :
  0xC2 <= b0 <= 0xDF -> 0x80 <= b1 <= 0xBF ->
  utf8_decode h (b0 :: b1 :: t1)
  = emit ((b0 - 0xC0) * 64 + (b1 - 0x80)) (utf8_decode h t1).
Proof.
  intros H0 H1. cbn [utf8_decode]; unfold decode_next; cbn [utf8_decode].
  rewrite (in_range_false 0 0x7F) by lia.
  rewrite (in_range_true 0xC2 0xDF) by exact H0.
  unfold cont. rewrite (in_range_true 0x80 0xBF) by exact H1. reflexivity.
Qed.

Lemma utf8_decode_3 h b0 b1 b2 t2 :
  0xE0 <= b0 <= 0xEF ->
  in_range (second_lo b0) (second_hi b0) b1 = true ->
  0x80 <= b2 <= 0xBF ->
  utf8_decode h (b0 :: b1 :: b2 :: t2)
  = emit ((b0 - 0xE0) * 4096 + (b1 - 0x80) * 64 + (b2 - 0x80))
         (utf8_decode h t2).
Proof.
  intros H0 H1 H2. cbn [utf8_decode]; unfold decode_next; cbn [utf8_decode].
  rewrite (in_range_false 0 0x7F) by lia.
  rewrite (in_range_false 0xC2 0xDF) by lia.
  rewrite (in_range_true 0xE0 0xEF) by exact H0.
  rewrite H1. unfold cont.
  rewrite (in_range_true 0x80 0xBF) by exact H2. reflexivity.
Qed.

Lemma utf8_decode_4 h b0 b1 b2 b3 t3 :
  0xF0 <= b0 <= 0xF4 ->
  in_range (second_lo b0) (second_hi b0) b1 = true ->
  0x80 <= b2 <= 0xBF -> 0x80 <= b3 <= 0xBF ->
  utf8_decode h (b0 :: b1 :: b2 :: b3 :: t3)
  = emit ((b0 - 0xF0) * 262144 + (b1 - 0x80) * 4096
          + (b2 - 0x80) * 64 + (b3 - 0x80))
         (utf8_decode h t3).
Proof.
  intros H0 H1 H2 H3. cbn [utf8_decode]; unfold decode_next; cbn [utf8_decode].
  rewrite (in_range_false 0 0x7F) by lia.
  rewrite (in_range_false 0xC2 0xDF) by lia.
  rewrite (in_range_false 0xE0 0xEF) by lia.
  rewrite (in_range_true 0xF0 0xF4) by exact H0.
  rewrite H1. unfold cont.
  rewrite (in_range_true 0x80 0xBF) by exact H2.
  rewrite (in_range_true 0x80 0xBF) by exact H3. reflexivity.
Qed.

Lemma second_range b0 b1 :
  (b0 = 0xE0 -> 0xA0 <= b1 <= 0xBF) ->
  (b0 = 0xED -> 0x80 <= b1 <= 0x9F) ->
  (b0 = 0xF0 -> 0x90 <= b1 <= 0xBF) ->
  (b0 = 0xF4 -> 0x80 <= b1 <= 0x8F) ->
  0x80 <= b1 <= 0xBF ->
  in_range (second_lo b0) (second_hi b0) b1 = true.
Proof.
  intros HE0 HED HF0 HF4 H. apply in_range_true.
  unfold second_lo, second_hi.
  destruct (Z.eqb_spec b0 0xE0); destruct (Z.eqb_spec b0 0xED);
    destruct (Z.eqb_spec b0 0xF0); destruct (Z.eqb_spec b0 0xF4); lia.
Qed.

(** Decoding the octets of one scalar value gives it back, under every
    error handler and whatever follows. *)
Lemma utf8_decode_encode_char (h : errors) (c : Z) (rest : bytes) :
  scalar c = true ->
  exists bs, utf8_encode_char c = Some bs /\
             utf8_decode h (bs ++ rest) = emit c (utf8_decode h rest).
Proof.
  unfold scalar. rewrite orb_true_iff, !in_range_spec. intros Hc.
  unfold utf8_encode_char.
  destruct (in_range 0 0x7F c) eqn:E1.
  { apply in_range_spec in E1. eexists. split; [reflexivity|].
    cbn [app]. apply utf8_decode_1. exact E1. }
  destruct (in_range 0x80 0x7FF c) eqn:E2.
  { apply in_range_spec in E2. eexists. split; [reflexivity|].
    cbn [app].
    pose proof (Z.div_mod c 64 ltac:(lia)) as D.
    pose proof (Z.mod_pos_bound c 64 ltac:(lia)) as M.
    rewrite utf8_decode_2 by lia. f_equal. lia. }
  destruct (in_range 0x800 0xD7FF c || in_range 0xE000 0xFFFF c) eqn:E3.
  { rewrite orb_true_iff, !in_range_spec in E3.
    eexists. split; [reflexivity|]. cbn [app].
    pose proof (Z.div_mod c 64 ltac:(lia)) as D.
    pose proof (Z.mod_pos_bound c 64 ltac:(lia)) as M.
    pose proof (Z.div_mod (c / 64) 64 ltac:(lia)) as D'.
    pose proof (Z.mod_pos_bound (c / 64) 64 ltac:(lia)) as M'.
    assert (Q : c / 4096 = c / 64 / 64)
      by (rewrite Z.div_div by lia; reflexivity).
    rewrite utf8_decode_3;
      [f_equal; lia | lia | apply second_range; lia | lia]. }
  destruct (in_range 0x10000 0x10FFFF c) eqn:E4.
  { apply in_range_spec in E4.
    eexists. split; [reflexivity|]. cbn [app].
    pose proof (Z.div_mod c 64 ltac:(lia)) as D.
    pose proof (Z.mod_pos_bound c 64 ltac:(lia)) as M.
    pose proof (Z.div_mod (c / 64) 64 ltac:(lia)) as D'.
    pose proof (Z.mod_pos_bound (c / 64) 64 ltac:(lia)) as M'.
    pose proof (Z.div_mod (c / 4096) 64 ltac:(lia)) as D''.
    pose proof (Z.mod_pos_bound (c / 4096) 64 ltac:(lia)) as M''.
    assert (Q : c / 4096 = c / 64 / 64)
      by (rewrite Z.div_div by lia; reflexivity).
    assert (Q' : c / 262144 = c / 4096 / 64)
      by (rewrite Z.div_div by lia; reflexivity).
    rewrite utf8_decode_4;
      [f_equal; lia | lia | apply second_range; lia | lia | lia]. }
  exfalso.
  rewrite orb_false_iff in E3. destruct E3 as [E3 E3'].
  unfold in_range in *.
  rewrite andb_false_iff, !Z.leb_gt in E1, E2, E3, E3', E4. lia.
Qed.

Lemma utf8_decode_encode_app (h h' : errors) (s : str) (rest : bytes) :
  forallb scalar s = true ->
  exists bs, utf8_encode h' s = Ok bs /\
             utf8_decode h (bs ++ rest) = emits s (utf8_decode h rest).
Proof.
  induction s as [|c s IH]; intros Hs.
  - exists []. split; [reflexivity|]. cbn [app emits].
    destruct (utf8_decode h rest); reflexivity.
  - cbn [forallb] in Hs. apply andb_true_iff in Hs. destruct Hs as [Hc Hs].
    destruct (IH Hs) as (bs & Hbs & Hdec).
    destruct (utf8_decode_encode_char h c (bs ++ rest) Hc) as (cs & Hcs & Hdc).
    exists (cs ++ bs). split.
    + cbn [utf8_encode]. rewrite Hcs, Hbs. reflexivity.
    + rewrite <- app_assoc, Hdc, Hdec.
      destruct (utf8_decode h rest); reflexivity.
Qed.

(** The three handlers take the same steps and differ only in what a
    malformed subsequence contributes. *)
Lemma decode_next_handlers (b0 : Z) (t0 : bytes)
    (P : result str -> result str -> result str -> Prop) :
  P (decode_error Strict (Ok [])) (decode_error Ignore (Ok []))
    (decode_error Replace (Ok [])) ->
  (forall c t, (List.length t <= List.length t0)%nat ->
     P (emit c (utf8_decode Strict t)) (emit c (utf8_decode Ignore t))
       (emit c (utf8_decode Replace t))) ->
  (forall t, (List.length t <= List.length t0)%nat ->
     P (decode_error Strict (utf8_decode Strict t))
       (decode_error Ignore (utf8_decode Ignore t))
       (decode_error Replace (utf8_decode Replace t))) ->
  P (utf8_decode Strict (b0 :: t0)) (utf8_decode Ignore (b0 :: t0))
    (utf8_decode Replace (b0 :: t0)).
Proof.
  intros H1 H2 H3.
  change (P (decode_next Strict (utf8_decode Strict) b0 t0)
            (decode_next Ignore (utf8_decode Ignore) b0 t0)
            (decode_next Replace (utf8_decode Replace) b0 t0)).
  unfold decode_next.
  destruct t0 as [|b1 [|b2 [|b3 t3]]];
    repeat match goal with
    | |- context [if ?c then _ else _] => destruct c
    end;
    first [ exact H1
          | apply H2; cbn [List.length]; lia
          | apply H3; cbn [List.length]; lia ].
Qed.

(** On well-formed input the three handlers agree; on any other input the
    strict handler raises and the [ignore] handler returns strictly fewer
    code points than the [replace] handler: what is malformed is dropped,
    not replaced. *)
Lemma utf8_decode_handlers (bs : bytes) :
  exists si sr,
    utf8_decode Ignore bs = Ok si /\ utf8_decode Replace bs = Ok sr /\
    ((utf8_decode Strict bs = Ok si /\ sr = si) \/
     (utf8_decode Strict bs = Raise UnicodeDecodeError /\
      (List.length si < List.length sr)%nat)).
Proof.
  assert (G : forall n bs, (List.length bs <= n)%nat ->
    exists si sr,
      utf8_decode Ignore bs = Ok si /\ utf8_decode Replace bs = Ok sr /\
      ((utf8_decode Strict bs = Ok si /\ sr = si) \/
       (utf8_decode Strict bs = Raise UnicodeDecodeError /\
        (List.length si < List.length sr)%nat))).
  { induction n as [|n IH]; intros l Hl.
    - destruct l; [|cbn in Hl; lia]. exists [], []. cbn. auto.
    - destruct l as [|b0 t0]; [exists [], []; cbn; auto|].
      cbn [List.length] in Hl. apply decode_next_handlers.
      + exists [], [0xFFFD]. cbn. auto 6.
      + intros c t Ht.
        destruct (IH t ltac:(lia)) as (si & sr & Ei & Er & Hc).
        rewrite Ei, Er. exists (c :: si), (c :: sr). cbn [emit].
        split; [reflexivity|]. split; [reflexivity|].
        destruct Hc as [[Es ->]|[Es L]]; rewrite Es; cbn [emit].
        * left. auto.
        * right. split; [reflexivity | cbn [List.length]; lia].
      + intros t Ht.
        destruct (IH t ltac:(lia)) as (si & sr & Ei & Er & Hc).
        rewrite Ei, Er. exists si, (0xFFFD :: sr). cbn [decode_error emit].
        split; [reflexivity|]. split; [reflexivity|].
        right. split; [reflexivity|]. cbn [List.length].
        destruct Hc as [[_ ->]|[_ L]]; lia. }
  apply (G (List.length bs)). lia.
Qed.

(** Decoding is lossless on valid UTF-8. *)
Lemma utf8_decode_encode (h : errors) (s : str) (bs : bytes) :
  forallb scalar s = true -> utf8_encode Strict s = Ok bs ->
  utf8_decode h bs = Ok s.
Proof.
  intros Hs He.
  destruct (utf8_decode_encode_app h Strict s [] Hs) as (bs' & He' & Hd).
  rewrite He in He'. inversion He'; subst bs'.
  rewrite app_nil_r in Hd. rewrite Hd. cbn. rewrite app_nil_r. reflexivity.
Qed.

(** *** The strict decoder accepts exactly the valid sequences *)

Lemma second_range_inv b0 b1 :
  in_range (second_lo b0) (second_hi b0) b1 = true ->
  0x80 <= b1 <= 0xBF /\
  (b0 = 0xE0 -> 0xA0 <= b1) /\ (b0 = 0xED -> b1 <= 0x9F) /\
  (b0 = 0xF0 -> 0x90 <= b1) /\ (b0 = 0xF4 -> b1 <= 0x8F).
Proof.
  rewrite in_range_spec. unfold second_lo, second_hi.
  destruct (Z.eqb_spec b0 0xE0); destruct (Z.eqb_spec b0 0xED);
    destruct (Z.eqb_spec b0 0xF0); destruct (Z.eqb_spec b0 0xF4); lia.
Qed.

Lemma utf8_encode_char_1 b0 :
  0 <= b0 <= 0x7F -> utf8_encode_char b0 = Some [b0] /\ scalar b0 = true.
Proof.
  intros H. unfold utf8_encode_char, scalar.
  rewrite (in_range_true 0 0x7F) by lia.
  rewrite (in_range_true 0 0xD7FF) by lia. auto.
Qed.

Lemma utf8_encode_char_2 b0 b1 :
  0xC2 <= b0 <= 0xDF -> 0x80 <= b1 <= 0xBF ->
  utf8_encode_char ((b0 - 0xC0) * 64 + (b1 - 0x80)) = Some [b0; b1] /\
  scalar ((b0 - 0xC0) * 64 + (b1 - 0x80)) = true.
Proof.
  intros H0 H1. set (c := (b0 - 0xC0) * 64 + (b1 - 0x80)).
  assert (Hc : 0x80 <= c <= 0x7FF) by (subst c; lia).
  assert (D : c / 64 = b0 - 0xC0 /\ c mod 64 = b1 - 0x80)
    by (subst c; Z.div_mod_to_equations; lia).
  destruct D as [D1 D2].
  unfold utf8_encode_char, scalar.
  rewrite (in_range_false 0 0x7F) by lia.
  rewrite (in_range_true 0x80 0x7FF) by lia.
  rewrite (in_range_true 0 0xD7FF) by lia.
  rewrite D1, D2. split; [|reflexivity]. do 2 f_equal; [lia|f_equal; lia].
Qed.

Lemma utf8_encode_char_3 b0 b1 b2 :
  0xE0 <= b0 <= 0xEF ->
  in_range (second_lo b0) (second_hi b0) b1 = true ->
  0x80 <= b2 <= 0xBF ->
  utf8_encode_char ((b0 - 0xE0) * 4096 + (b1 - 0x80) * 64 + (b2 - 0x80))
    = Some [b0; b1; b2] /\
  scalar ((b0 - 0xE0) * 4096 + (b1 - 0x80) * 64 + (b2 - 0x80)) = true.
Proof.
  intros H0 H1 H2. apply second_range_inv in H1.
  destruct H1 as (H1 & HE0 & HED & _ & _).
  set (c := (b0 - 0xE0) * 4096 + (b1 - 0x80) * 64 + (b2 - 0x80)).
  assert (Hc : 0x800 <= c <= 0xD7FF \/ 0xE000 <= c <= 0xFFFF)
    by (subst c; lia).
  assert (D : c / 4096 = b0 - 0xE0 /\ (c / 64) mod 64 = b1 - 0x80
              /\ c mod 64 = b2 - 0x80)
    by (subst c; Z.div_mod_to_equations; lia).
  destruct D as (D1 & D2 & D3).
  assert (S : scalar c = true).
  { unfold scalar. apply orb_true_iff. rewrite !in_range_spec. lia. }
  assert (T : in_range 0x800 0xD7FF c || in_range 0xE000 0xFFFF c = true).
  { apply orb_true_iff. rewrite !in_range_spec. lia. }
  unfold utf8_encode_char.
  rewrite (in_range_false 0 0x7F) by lia.
  rewrite (in_range_false 0x80 0x7FF) by lia.
  rewrite T, D1, D2, D3. split; [|exact S].
  do 2 f_equal; [lia|]. f_equal; [lia|]. f_equal. lia.
Qed.

Lemma utf8_encode_char_4 b0 b1 b2 b3 :
  0xF0 <= b0 <= 0xF4 ->
  in_range (second_lo b0) (second_hi b0) b1 = true ->
  0x80 <= b2 <= 0xBF -> 0x80 <= b3 <= 0xBF ->
  utf8_encode_char ((b0 - 0xF0) * 262144 + (b1 - 0x80) * 4096
                    + (b2 - 0x80) * 64 + (b3 - 0x80))
    = Some [b0; b1; b2; b3] /\
  scalar ((b0 - 0xF0) * 262144 + (b1 - 0x80) * 4096
          + (b2 - 0x80) * 64 + (b3 - 0x80)) = true.
Proof.
  intros H0 H1 H2 H3. apply second_range_inv in H1.
  destruct H1 as (H1 & _ & _ & HF0 & HF4).
  set (c := (b0 - 0xF0) * 262144 + (b1 - 0x80) * 4096
            + (b2 - 0x80) * 64 + (b3 - 0x80)).
  assert (Hc : 0x10000 <= c <= 0x10FFFF) by (subst c; lia).
  assert (D : c / 262144 = b0 - 0xF0 /\ (c / 4096) mod 64 = b1 - 0x80
              /\ (c / 64) mod 64 = b2 - 0x80 /\ c mod 64 = b3 - 0x80)
    by (subst c; Z.div_mod_to_equations; lia).
  destruct D as (D1 & D2 & D3 & D4).
  assert (S : scalar c = true).
  { unfold scalar. apply orb_true_iff. rewrite !in_range_spec. lia. }
  assert (T : in_range 0x800 0xD7FF c || in_range 0xE000 0xFFFF c = false).
  { apply orb_false_iff. split; apply in_range_false; lia. }
  unfold utf8_encode_char.
  rewrite (in_range_false 0 0x7F) by lia.
  rewrite (in_range_false 0x80 0x7FF) by lia.
  rewrite T. rewrite (in_range_true 0x10000 0x10FFFF) by lia.
  rewrite D1, D2, D3, D4. split; [|exact S].
  do 2 f_equal; [lia|]. f_equal; [lia|]. f_equal; [lia|]. f_equal. lia.
Qed.

Lemma emit_ok_inv {A} (c : A) (k : result (list A)) (s : list A) :
  emit c k = Ok s -> exists s', k = Ok s' /\ s = c :: s'.
Proof.
  destruct k as [s'|e]; cbn; [|discriminate].
  intros H. inversion H. eauto.
Qed.

(** A successful strict decoding starts with the octets of one scalar
    value. *)
Lemma utf8_decode_strict_cons (b0 : Z) (t0 : bytes) (s : str) :
  utf8_decode Strict (b0 :: t0) = Ok s ->
  exists c cs t s',
    s = c :: s' /\ b0 :: t0 = cs ++ t /\
    utf8_encode_char c = Some cs /\ scalar c = true /\
    utf8_decode Strict t = Ok s' /\ (List.length t <= List.length t0)%nat.
Proof.
  change (utf8_decode Strict (b0 :: t0))
    with (decode_next Strict (utf8_decode Strict) b0 t0).
  unfold decode_next, cont, decode_error.
  destruct (in_range 0 0x7F b0) eqn:E1.
  { apply in_range_spec in E1. intros H.
    apply emit_ok_inv in H. destruct H as (s' & Hd & ->).
    destruct (utf8_encode_char_1 b0 E1) as [He Hs].
    exists b0, [b0], t0, s'. cbn [app]. auto 7. }
  destruct (in_range 0xC2 0xDF b0) eqn:E2.
  { apply in_range_spec in E2.
    destruct t0 as [|b1 t1]; [discriminate|].
    destruct (in_range 0x80 0xBF b1) eqn:C1; [|discriminate].
    apply in_range_spec in C1. intros H.
    apply emit_ok_inv in H. destruct H as (s' & Hd & ->).
    destruct (utf8_encode_char_2 b0 b1 E2 C1) as [He Hs].
    eexists _, [b0; b1], t1, s'. cbn [app List.length].
    repeat split; try eassumption. lia. }
  destruct (in_range 0xE0 0xEF b0) eqn:E3.
  { apply in_range_spec in E3.
    destruct t0 as [|b1 t1]; [discriminate|].
    destruct (in_range (second_lo b0) (second_hi b0) b1) eqn:C1;
      [|discriminate].
    destruct t1 as [|b2 t2]; [discriminate|].
    destruct (in_range 0x80 0xBF b2) eqn:C2; [|discriminate].
    apply in_range_spec in C2. intros H.
    apply emit_ok_inv in H. destruct H as (s' & Hd & ->).
    destruct (utf8_encode_char_3 b0 b1 b2 E3 C1 C2) as [He Hs].
    eexists _, [b0; b1; b2], t2, s'. cbn [app List.length].
    repeat split; try eassumption. lia. }
  destruct (in_range 0xF0 0xF4 b0) eqn:E4; [|discriminate].
  apply in_range_spec in E4.
  destruct t0 as [|b1 t1]; [discriminate|].
  destruct (in_range (second_lo b0) (second_hi b0) b1) eqn:C1;
    [|discriminate].
  destruct t1 as [|b2 t2]; [discriminate|].
  destruct (in_range 0x80 0xBF b2) eqn:C2; [|discriminate].
  destruct t2 as [|b3 t3]; [discriminate|].
  destruct (in_range 0x80 0xBF b3) eqn:C3; [|discriminate].
  apply in_range_spec in C2, C3. intros H.
  apply emit_ok_inv in H. destruct H as (s' & Hd & ->).
  destruct (utf8_encode_char_4 b0 b1 b2 b3 E4 C1 C2 C3) as [He Hs].
  eexists _, [b0; b1; b2; b3], t3, s'. cbn [app List.length].
  repeat split; try eassumption. lia.
Qed.

(** What the strict decoder accepts is the encoding of what it returns. *)
Lemma utf8_decode_strict_sound (bs : bytes) (s : str) :
  utf8_decode Strict bs = Ok s ->
  forallb scalar s = true /\ utf8_encode Strict s = Ok bs.
Proof.
  assert (G : forall n bs s, (List.length bs <= n)%nat ->
                utf8_decode Strict bs = Ok s ->
                forallb scalar s = true /\ utf8_encode Strict s = Ok bs).
  { induction n as [|n IH]; intros l s0 Hl Hd.
    - destruct l; [|cbn in Hl; lia]. cbn in Hd. inversion Hd. auto.
    - destruct l as [|b0 t0]; [cbn in Hd; inversion Hd; auto|].
      cbn [List.length] in Hl.
      apply utf8_decode_strict_cons in Hd.
      destruct Hd as (c & cs & t & s' & -> & -> & He & Hs & Hd & Ht).
      destruct (IH t s' ltac:(lia) Hd) as [IH1 IH2].
      cbn [forallb utf8_encode]. rewrite Hs, IH1, He, IH2. auto. }
  apply (G (List.length bs)). lia.
Qed.

(** Validity, decided by the strict decoder. *)
Lemma valid_utf8_iff (bs : bytes) :
  valid_utf8 bs <-> exists s, utf8_decode Strict bs = Ok s.
Proof.
  split.
  - intros (s & Hs & He). exists s. exact (utf8_decode_encode Strict s bs Hs He).
  - intros (s & Hd). exists s. apply utf8_decode_strict_sound. exact Hd.
Qed.
(** ** Facts about strings *)

Lemma str_eqb_eq (a b : str) : str_eqb a b = true <-> a = b.
Proof.
  revert b. induction a as [|x a IH]; intros [|y b]; cbn [str_eqb];
    try (split; [discriminate | congruence]); [tauto|].
  rewrite andb_true_iff, Z.eqb_eq, IH. split.
  - intros [-> ->]. reflexivity.
  - intros E. inversion E. auto.
Qed.

Lemma str_eqb_neq (a b : str) : str_eqb a b = false <-> a <> b.
Proof.
  rewrite <- str_eqb_eq. destruct (str_eqb a b); split; congruence.
Qed.

Lemma utf8_encode_ignore_total (s : str) :
  exists bs, utf8_encode Ignore s = Ok bs.
Proof.
  induction s as [|c s [bs IH]]; cbn [utf8_encode]; [eauto|].
  rewrite IH. destruct (utf8_encode_char c); cbn; eauto.
Qed.

Section Facts.

Variable R : runtime.

Lemma drop_while_no_space (s : str) :
  no_space R s -> drop_while (isspace R) s = s.
Proof.
  destruct s as [|c s]; [reflexivity|]. unfold no_space. cbn.
  destruct (isspace R c); [discriminate | reflexivity].
Qed.

Lemma no_space_rev (s : str) : no_space R s -> no_space R (rev s).
Proof.
  unfold no_space. rewrite !forallb_forall.
  intros H c Hc. apply H. apply in_rev. exact Hc.
Qed.

(** [strip] leaves a string without white space as it is. *)
Lemma strip_no_space (s : str) : no_space R s -> strip R s = s.
Proof.
  intros H. unfold strip.
  rewrite (drop_while_no_space s H).
  rewrite (drop_while_no_space (rev s) (no_space_rev s H)).
  apply rev_involutive.
Qed.

Lemma take_while_no_space (s : str) :
  no_space R (take_while (fun c => negb (isspace R c)) s).
Proof.
  unfold no_space. induction s as [|c s IH]; [reflexivity|].
  cbn [take_while]. destruct (negb (isspace R c)) eqn:E; [|reflexivity].
  cbn [forallb]. rewrite E, IH. reflexivity.
Qed.

(** Group 1 of a match is not empty and holds no white space. *)
Lemma match_here_token (lit text tok : str) :
  match_here R lit text = Some tok -> tok <> [] /\ no_space R tok.
Proof.
  unfold match_here. destruct (match_literal R lit text) as [after|];
    [|discriminate].
  pose proof (take_while_no_space (drop_while (isspace R) after)) as N.
  destruct (take_while _ _) as [|c t]; [discriminate|].
  intros E. inversion E; subst. split; [discriminate | exact N].
Qed.

Lemma re_search_token (lit text tok : str) :
  re_search R lit text = Some tok -> tok <> [] /\ no_space R tok.
Proof.
  induction text as [|c text IH]; cbn [re_search].
  - destruct (match_here R lit []) eqn:E; [|discriminate].
    intros H. inversion H; subst. eapply match_here_token; eassumption.
  - destruct (match_here R lit (c :: text)) eqn:E; [|exact IH].
    intros H. inversion H; subst. eapply match_here_token; eassumption.
Qed.

(** ** Facts about the transport *)

Lemma whois_query_server_trace query server port timeout tr :
  snd (whois_query_server R query server port timeout tr)
  = tr ++ [request_for query server port timeout].
Proof.
  unfold whois_query_server, request_for.
  destruct (utf8_encode_ignore_total (query ++ CRLF)) as [bs ->].
  reflexivity.
Qed.

Lemma whois_query_server_eq query server port timeout tr r tr' :
  whois_query_server R query server port timeout tr = (r, tr') ->
  tr' = tr ++ [request_for query server port timeout].
Proof.
  intros H. rewrite <- whois_query_server_trace with (tr := tr), H.
  reflexivity.
Qed.

(** Discovery never raises and issues exactly one query, to the root
    registry on the default port. *)
Lemma find_whois_server_for_tld_ok tld timeout tr :
  exists o,
    find_whois_server_for_tld R tld timeout tr
    = (Ok o, tr ++ [request_for tld IANA DEFAULT_WHOIS_PORT timeout]).
Proof.
  unfold find_whois_server_for_tld, bind, try_except, ret.
  destruct (whois_query_server R tld IANA DEFAULT_WHOIS_PORT timeout tr)
    as [[resp|e] tr'] eqn:E;
    apply whois_query_server_eq in E; subst tr'.
  - destruct (re_search R (py "whois:") resp); eauto.
  - eauto.
Qed.

Lemma resolve_server_no_override v domain server timeout :
  no_override v server = true ->
  resolve_server R v domain server timeout = discover R v domain timeout.
Proof.
  intros H. unfold resolve_server. destruct server; [rewrite H|]; reflexivity.
Qed.

Lemma discover_ok v domain timeout tr :
  exists s tr',
    discover R v domain timeout tr = (Ok s, tr') /\
    (tr' = tr \/
     tr' = tr ++ [request_for (last (split 46 (lower R domain)) []) IANA
                              DEFAULT_WHOIS_PORT timeout]).
Proof.
  unfold discover. cbv zeta. destruct (List.length _ <? 2)%nat.
  - unfold ret. eauto.
  - unfold bind.
    destruct (find_whois_server_for_tld_ok
                (last (split 46 (lower R domain)) []) timeout tr)
      as [o ->].
    destruct o as [[|c s]|]; unfold ret; eauto.
Qed.

(** The resolver never raises, and issues at most the discovery query. *)
Lemma resolve_server_ok v domain server timeout tr :
  exists s tr',
    resolve_server R v domain server timeout tr = (Ok s, tr') /\
    (tr' = tr \/
     tr' = tr ++ [request_for (last (split 46 (lower R domain)) []) IANA
                              DEFAULT_WHOIS_PORT timeout]).
Proof.
  unfold resolve_server.
  destruct server as [s|]; [|apply discover_ok].
  destruct (no_override v (Some s)); [apply discover_ok|].
  unfold ret. eauto.
Qed.

End Facts.

(** ** Facts about the lookup *)

Section LookupFacts.

Variable R : runtime.

(** When the [python-whois] block falls through, the dictionary is the fresh
    one, with [error] set if the package was tried and failed. *)
Lemma try_pywhois_continue v d server out out0 :
  try_pywhois R v d server out = Continue out0 ->
  (out0 = out /\ (HAVE_PYWHOIS R = false \/ server <> None)) \/
  (HAVE_PYWHOIS R = true /\ server = None /\
   exists e, pywhois_whois R d = Raise e /\
             out0 = set_error out
                      (Some (py "python-whois failed: " ++ exn_str e))).
Proof.
  unfold try_pywhois.
  destruct (HAVE_PYWHOIS R); cbn [andb].
  - destruct server as [s|]; cbn [is_none].
    + intros E. inversion E. left. split; [reflexivity|]. right. discriminate.
    + destruct (pywhois_whois R d) as [pd|e]; [discriminate|].
      intros E. inversion E. right. eauto 6.
  - intros E. inversion E. left. auto.
Qed.

Lemma try_pywhois_continue_fields v d server out0 :
  try_pywhois R v d server (new_result d) = Continue out0 ->
  query out0 = d /\ raw out0 = None /\ parsed out0 = None /\
  raw_follow out0 = None /\ server_used_follow out0 = None /\
  notes out0 = [].
Proof.
  intros H. apply try_pywhois_continue in H.
  destruct H as [[-> _] | (_ & _ & e & _ & ->)]; cbn; auto 7.
Qed.

(** The lookup after the [python-whois] block has fallen through and the
    server has been resolved: one primary query, and at most one follow-up
    query, decided by the leftmost match of the referral pattern. *)
Lemma smart_whois_continue v domain server port timeout tr out0 s tr1 :
  try_pywhois R v (strip R domain) server (new_result (strip R domain))
    = Continue out0 ->
  resolve_server R v (strip R domain) server timeout tr = (Ok s, tr1) ->
  smart_whois R v domain server port timeout tr =
  match whois_query_server R (strip R domain) s port timeout tr1 with
  | (Raise e, tr2) =>
      (Ok (set_error (set_server_used out0 (Some s)) (Some (exn_str e))), tr2)
  | (Ok raw0, tr2) =>
      let out := set_raw (set_server_used out0 (Some s)) (Some raw0) in
      match re_search R (py "Whois Server:") raw0 with
      | None => (Ok out, tr2)
      | Some ref =>
          if str_eqb ref s then (Ok out, tr2)
          else
            match whois_query_server R (strip R domain) ref port timeout tr2
            with
            | (Ok raw2, tr3) =>
                (Ok (set_server_used_follow (set_raw_follow out (Some raw2))
                       (Some ref)), tr3)
            | (Raise e, tr3) =>
                (Ok (add_note out (py "follow referral failed: " ++ exn_str e)),
                 tr3)
            end
      end
  end.
Proof.
  intros Hp Hr. unfold smart_whois. cbv zeta. rewrite Hp.
  unfold bind at 1. rewrite Hr. unfold try_except at 1. unfold bind at 1.
  destruct (whois_query_server R (strip R domain) s port timeout tr1)
    as [[raw0|e] tr2]; [|reflexivity].
  destruct (re_search R (py "Whois Server:") raw0) as [ref|] eqn:Es;
    [|reflexivity].
  destruct (re_search_token R _ _ _ Es) as [Hne Hns].
  rewrite (strip_no_space R ref Hns).
  destruct ref as [|c ref]; [congruence|]. cbn [truthy andb].
  destruct (str_eqb (c :: ref) s); cbn [negb]; [reflexivity|].
  unfold try_except, bind, ret.
  destruct (whois_query_server R (strip R domain) (c :: ref) port timeout tr2)
    as [[raw2|e] tr3]; reflexivity.
Qed.

(** [smart_whois] never raises. *)
Lemma smart_whois_ok v domain server port timeout tr :
  exists r tr', smart_whois R v domain server port timeout tr = (Ok r, tr').
Proof.
  destruct (try_pywhois R v (strip R domain) server
              (new_result (strip R domain))) as [out|out0] eqn:Hp.
  - unfold smart_whois. cbv zeta. rewrite Hp. unfold ret. eauto.
  - destruct (resolve_server_ok R v (strip R domain) server timeout tr)
      as (s & tr1 & Hr & _).
    rewrite (smart_whois_continue _ _ _ _ _ _ _ _ _ Hp Hr).
    destruct (whois_query_server R (strip R domain) s port timeout tr1)
      as [[raw0|e] tr2]; [|eauto].
    cbv zeta. destruct (re_search R (py "Whois Server:") raw0) as [ref|];
      [|eauto].
    destruct (str_eqb ref s); [eauto|].
    destruct (whois_query_server R (strip R domain) ref port timeout tr2)
      as [[raw2|e] tr3]; eauto.
Qed.

(** Once the server is resolved, the next request is the primary query to
    it, and the result names it as the server used. *)
Lemma smart_whois_primary v domain server port timeout tr out0 s tr1 :
  try_pywhois R v (strip R domain) server (new_result (strip R domain))
    = Continue out0 ->
  resolve_server R v (strip R domain) server timeout tr = (Ok s, tr1) ->
  exists r later,
    smart_whois R v domain server port timeout tr
    = (Ok r, tr1 ++ request_for (strip R domain) s port timeout :: later) /\
    server_used r = Some s.
Proof.
  intros Hp Hr.
  rewrite (smart_whois_continue _ _ _ _ _ _ _ _ _ Hp Hr).
  destruct (whois_query_server R (strip R domain) s port timeout tr1)
    as [[raw0|e] tr2] eqn:Hq;
    apply whois_query_server_eq in Hq; subst tr2.
  2:{ exists (set_error (set_server_used out0 (Some s)) (Some (exn_str e))), [].
      split; reflexivity. }
  cbv zeta.
  destruct (re_search R (py "Whois Server:") raw0) as [ref|].
  2:{ eexists _, []. split; reflexivity. }
  destruct (str_eqb ref s).
  { eexists _, []. split; reflexivity. }
  destruct (whois_query_server R (strip R domain) ref port timeout _)
    as [[raw2|e] tr3] eqn:Hq2;
    apply whois_query_server_eq in Hq2; subst tr3;
    rewrite <- app_assoc; eexists _, [_]; split; reflexivity.
Qed.

Lemma smart_whois_primary_raises v domain server port timeout tr out0 s tr1
    e tr2 :
  try_pywhois R v (strip R domain) server (new_result (strip R domain))
    = Continue out0 ->
  resolve_server R v (strip R domain) server timeout tr = (Ok s, tr1) ->
  whois_query_server R (strip R domain) s port timeout tr1 = (Raise e, tr2) ->
  smart_whois R v domain server port timeout tr
  = (Ok (set_error (set_server_used out0 (Some s)) (Some (exn_str e))), tr2).
Proof.
  intros Hp Hr Hq.
  rewrite (smart_whois_continue _ _ _ _ _ _ _ _ _ Hp Hr), Hq. reflexivity.
Qed.

(** The resolver when discovery gives nothing. *)
Lemma resolve_server_fallback v domain server timeout tr tr1 :
  no_override v server = true ->
  (2 <= List.length (split 46 (lower R domain)))%nat ->
  find_whois_server_for_tld R (last (split 46 (lower R domain)) []) timeout tr
    = (Ok None, tr1) ->
  resolve_server R v domain server timeout tr
  = (Ok (static_fallback v domain (last (split 46 (lower R domain)) [])), tr1).
Proof.
  intros Hno Hlen Hfind.
  rewrite (resolve_server_no_override R _ _ _ _ Hno). unfold discover.
  assert (L : (List.length (split 46 (lower R domain)) <? 2)%nat = false)
    by (apply Nat.ltb_ge; exact Hlen).
  cbv zeta. rewrite L. unfold bind. rewrite Hfind. reflexivity.
Qed.

End LookupFacts.

(** ** Facts about the command line *)

Section MainFacts.

Variable R : runtime.

(** The requests issued by the loop depend on the arguments only through
    the server, the port and the timeout. *)
Lemma lookup_all_trace v args args' ds :
  arg_server args = arg_server args' ->
  arg_port args = arg_port args' ->
  arg_timeout args = arg_timeout args' ->
  forall results out results' out' tr,
    snd (lookup_all R v args ds results out tr)
    = snd (lookup_all R v args' ds results' out' tr).
Proof.
  intros Hs Hp Ht.
  induction ds as [|d ds IH]; intros results out results' out' tr;
    [reflexivity|].
  cbn [lookup_all]. unfold bind. rewrite <- Hs, <- Hp, <- Ht.
  destruct (smart_whois R v d (arg_server args) (arg_port args)
              (arg_timeout args) tr) as [[res|e] tr1]; [|reflexivity].
  destruct v;
    repeat match goal with
    | |- context [if ?c then _ else _] => destruct c
    end; apply IH.
Qed.

Lemma shows_referral_render_popped d res :
  existsb shows_referral (render_text who_is_CLI d (pop_referral res)) = false.
Proof.
  unfold render_text, pop_referral. cbn.
  destruct (error res) as [[|c e]|]; destruct (raw res) as [[|c' r]|];
    reflexivity.
Qed.

Lemma has_referral_popped res : has_referral (pop_referral res) = false.
Proof. reflexivity. Qed.

(** With [--no-referral], the loop of [who_is_CLI.py] neither collects nor
    writes a referral field. *)
Lemma lookup_all_no_referral args ds :
  arg_no_referral args = true ->
  forall results out tr results' out' tr',
    existsb has_referral results = false ->
    existsb shows_referral out = false ->
    lookup_all R who_is_CLI args ds results out tr
      = (Ok (results', out'), tr') ->
    existsb has_referral results' = false /\
    existsb shows_referral out' = false.
Proof.
  intros Hn.
  induction ds as [|d ds IH]; intros results out tr results' out' tr' Hr Ho E.
  - cbn in E. inversion E; subst. auto.
  - cbn [lookup_all] in E. unfold bind in E.
    destruct (smart_whois R who_is_CLI d (arg_server args) (arg_port args)
                (arg_timeout args) tr) as [[res|e] tr1]; [|discriminate].
    rewrite Hn in E.
    destruct (arg_quiet args && is_text (arg_output args)).
    + eapply IH; [exact Hr | | exact E].
      rewrite existsb_app, Ho. reflexivity.
    + eapply IH; [ | | exact E].
      * rewrite existsb_app, Hr. cbn [existsb].
        rewrite has_referral_popped. reflexivity.
      * destruct (is_text (arg_output args)); [|exact Ho].
        rewrite existsb_app, Ho, shows_referral_render_popped. reflexivity.
Qed.

End MainFacts.

(** ** More facts about strings *)

Section StripFacts.

Variable R : runtime.

Lemma drop_while_head (p : Z -> bool) (s : str) (c : Z) (t : str) :
  drop_while p s = c :: t -> p c = false.
Proof.
  induction s as [|x s IH]; cbn [drop_while]; [discriminate|].
  destruct (p x) eqn:E; [exact IH|].
  intros H. inversion H; subst. exact E.
Qed.

Lemma drop_while_split (p : Z -> bool) (s : str) :
  exists pre, s = pre ++ drop_while p s /\ forallb p pre = true.
Proof.
  induction s as [|x s (pre & E & F)]; cbn [drop_while].
  - exists []. auto.
  - destruct (p x) eqn:Ex.
    + exists (x :: pre). cbn. rewrite Ex, F, <- E. auto.
    + exists []. auto.
Qed.

Lemma last_rev (s : str) (d : Z) : last (rev s) d = hd d s.
Proof.
  destruct s as [|c s]; [reflexivity|]. cbn [rev hd]. apply last_last.
Qed.

Lemma hd_rev (s : str) (d : Z) : hd d (rev s) = last s d.
Proof. rewrite <- (rev_involutive s) at 2. symmetry. apply last_rev. Qed.

(** A string that neither starts nor ends with white space is left as it
    is. *)
Lemma strip_fixed (s : str) :
  isspace R (hd 0 s) = false -> isspace R (last s 0) = false ->
  s <> [] -> strip R s = s.
Proof.
  intros Hh Hl Hne. unfold strip.
  assert (D : drop_while (isspace R) s = s).
  { destruct s as [|c s]; [congruence|]. cbn in *. rewrite Hh. reflexivity. }
  rewrite D.
  assert (D' : drop_while (isspace R) (rev s) = rev s).
  { pose proof (hd_rev s 0) as H.
    destruct (rev s) as [|c t] eqn:E.
    - reflexivity.
    - cbn in H. cbn [drop_while]. rewrite H, Hl. reflexivity. }
  rewrite D'. apply rev_involutive.
Qed.

(** What [strip] returns, when it is not empty, starts and ends with a
    character that is not white space. *)
Lemma strip_ends (s : str) :
  strip R s <> [] ->
  isspace R (hd 0 (strip R s)) = false /\
  isspace R (last (strip R s) 0) = false.
Proof.
  unfold strip. intros Hne.
  set (t := drop_while (isspace R) s) in *.
  set (u := drop_while (isspace R) (rev t)) in *.
  assert (Hu : u <> []) by (intros E; apply Hne; rewrite E; reflexivity).
  split.
  - destruct (drop_while_split (isspace R) (rev t)) as (pre & E & _).
    fold u in E.
    assert (Et : t = rev u ++ rev pre).
    { rewrite <- rev_app_distr, <- E, rev_involutive. reflexivity. }
    destruct (rev u) as [|c tl] eqn:Er; [congruence|].
    cbn [hd]. cbn [app] in Et.
    apply (drop_while_head (isspace R) s c (tl ++ rev pre)). exact Et.
  - rewrite last_rev.
    destruct u as [|x u'] eqn:Eu; [congruence|]. cbn [hd].
    apply (drop_while_head (isspace R) (rev t) x u'). exact Eu.
Qed.

(** Stripping twice is stripping once. *)
Lemma strip_idempotent (s : str) : strip R (strip R s) = strip R s.
Proof.
  destruct (strip R s) as [|c t] eqn:E; [reflexivity|].
  assert (Hne : strip R s <> []) by (rewrite E; discriminate).
  destruct (strip_ends s Hne) as [Hh Hl]. rewrite E in Hh, Hl.
  apply strip_fixed; [exact Hh | exact Hl | discriminate].
Qed.

Lemma drop_while_keeps_nonspace (s : str) :
  has_nonspace R s = true -> has_nonspace R (drop_while (isspace R) s) = true.
Proof.
  unfold has_nonspace. induction s as [|c s IH]; [discriminate|].
  cbn [existsb drop_while]. destruct (isspace R c) eqn:E; cbn [negb orb].
  - exact IH.
  - intros _. cbn [existsb]. rewrite E. reflexivity.
Qed.

Lemma has_nonspace_rev (s : str) :
  has_nonspace R (rev s) = has_nonspace R s.
Proof.
  unfold has_nonspace.
  destruct (existsb _ s) eqn:E.
  - apply existsb_exists in E. destruct E as (c & Hin & Hc).
    apply existsb_exists. exists c. split; [|exact Hc].
    apply in_rev in Hin. exact Hin.
  - destruct (existsb _ (rev s)) eqn:E'; [|reflexivity].
    apply existsb_exists in E'. destruct E' as (c & Hin & Hc).
    apply in_rev in Hin.
    assert (existsb (fun c => negb (isspace R c)) s = true)
      by (apply existsb_exists; eauto).
    congruence.
Qed.

(** [strip] keeps every character that is not white space. *)
Lemma strip_has_nonspace (s : str) :
  has_nonspace R (strip R s) = has_nonspace R s.
Proof.
  assert (K : forall t, has_nonspace R (drop_while (isspace R) t)
                        = has_nonspace R t).
  { intros t. destruct (has_nonspace R t) eqn:E.
    - apply drop_while_keeps_nonspace. exact E.
    - destruct (drop_while_split (isspace R) t) as (pre & Et & _).
      destruct (has_nonspace R (drop_while (isspace R) t)) eqn:E';
        [|reflexivity].
      unfold has_nonspace in *. rewrite Et, existsb_app, E' in E.
      rewrite orb_true_r in E. discriminate. }
  unfold strip. rewrite has_nonspace_rev, K, has_nonspace_rev, K.
  reflexivity.
Qed.

Lemma strip_nonempty_iff (s : str) :
  strip R s <> [] <-> has_nonspace R s = true.
Proof.
  rewrite <- strip_has_nonspace. split.
  - intros Hne. destruct (strip_ends s Hne) as [Hh _].
    destruct (strip R s) as [|c t]; [congruence|].
    unfold has_nonspace. cbn in *. rewrite Hh. reflexivity.
  - intros H E. rewrite E in H. discriminate.
Qed.

End StripFacts.

(** ** Facts about the cleaned output *)

Section PrintCleanFacts.

Variable R : runtime.

Hypothesis LF_is_space : isspace R 10 = true.

Lemma blank_run_none (s : str) :
  blank_run R s = None ->
  forallb (fun c => negb (c =? 10)) (take_while (isspace R) s) = true.
Proof.
  induction s as [|c s IH]; [reflexivity|]. cbn [blank_run take_while].
  destruct (isspace R c) eqn:Ec; [|reflexivity].
  destruct (blank_run R s) as [n|]; [discriminate|].
  destruct (c =? 10) eqn:E10; [discriminate|].
  intros _. cbn [forallb]. rewrite E10, IH; reflexivity.
Qed.

Lemma blank_run_some (s : str) (n : nat) :
  blank_run R s = Some n ->
  (n <= List.length s)%nat /\
  drop_while (isspace R) (skipn n s) = drop_while (isspace R) s /\
  forallb (fun c => negb (c =? 10)) (take_while (isspace R) (skipn n s))
    = true.
Proof.
  revert n. induction s as [|c s IH]; intros n; [discriminate|].
  cbn [blank_run].
  destruct (isspace R c) eqn:Ec.
  - destruct (blank_run R s) as [m|] eqn:Em.
    + intros H. inversion H; subst n.
      destruct (IH m eq_refl) as (L & D & F).
      cbn [skipn drop_while List.length]. rewrite Ec. split; [lia|]. auto.
    + destruct (c =? 10) eqn:E10; [|discriminate].
      pose proof (blank_run_none s Em) as F.
      assert (T : take_while (fun x => x =? 10) s = []).
      { destruct s as [|x s']; [reflexivity|]. cbn [take_while] in *.
        destruct (x =? 10) eqn:Ex; [|reflexivity].
        apply Z.eqb_eq in Ex. subst x. rewrite LF_is_space in F.
        cbn in F. discriminate. }
      rewrite T. intros H. inversion H; subst n.
      cbn [skipn drop_while List.length]. rewrite Ec. split; [lia|]. auto.
  - destruct (c =? 10) eqn:E10; [|discriminate].
    apply Z.eqb_eq in E10. subst c. congruence.
Qed.

Lemma ends_ok_tail (c : Z) (s : str) :
  ends_ok R (c :: s) ->
  (s = [] /\ isspace R c = false) \/ (s <> [] /\ ends_ok R s).
Proof.
  intros [H|H]; [discriminate|].
  destruct s as [|x s]; [left; auto|].
  right. split; [discriminate|]. right. exact H.
Qed.

Lemma ends_ok_skipn (n : nat) (s : str) :
  ends_ok R s -> skipn n s <> [] -> ends_ok R (skipn n s).
Proof.
  revert s. induction n as [|n IH]; intros s H Hne; [exact H|].
  destruct s as [|c s]; [exact H|]. cbn [skipn] in *.
  apply ends_ok_tail in H. destruct H as [[-> _]|[_ H]].
  - destruct n; cbn in Hne; congruence.
  - apply IH; assumption.
Qed.

Lemma ends_ok_drop_while (s : str) :
  ends_ok R s -> s <> [] -> drop_while (isspace R) s <> [].
Proof.
  intros [H|H] Hne; [congruence|]. intros E.
  destruct (drop_while_split (isspace R) s) as (pre & Es & F).
  rewrite E, app_nil_r in Es. subst pre.
  destruct (exists_last Hne) as (l & a & El).
  rewrite El in H, F. rewrite last_last in H.
  rewrite forallb_app in F. cbn in F. rewrite H in F.
  rewrite andb_false_r in F. discriminate.
Qed.

(** The invariant of the scan: after the replacement no line is blank. *)
Lemma collapse_blank_lines_ok (s : str) :
  forall skip seen,
    (skip <= List.length s)%nat ->
    ends_ok R (skipn skip s) ->
    (seen = true \/ lead R (skipn skip s)) ->
    lines_ok R seen (collapse_blank R skip s) = true.
Proof.
  induction s as [|c s IH]; intros skip seen Hs He Hl.
  - assert (E : skipn skip (@nil Z) = []) by (destruct skip; reflexivity).
    rewrite E in Hl. destruct skip; cbn [collapse_blank lines_ok];
      (destruct Hl as [->|[Hl _]]; [reflexivity|]);
      exfalso; apply Hl; reflexivity.
  - destruct skip as [|k].
    2:{ cbn [collapse_blank skipn List.length] in *. apply IH; [lia|auto..]. }
    cbn [skipn] in He, Hl. cbn [collapse_blank].
    destruct (c =? 10) eqn:E10.
    + apply Z.eqb_eq in E10. subst c.
      assert (Hseen : seen = true).
      { destruct Hl as [->|[_ F]]; [reflexivity|].
        cbn [take_while] in F. rewrite LF_is_space in F. cbn in F.
        discriminate. }
      subst seen.
      apply ends_ok_tail in He. destruct He as [[_ He]|[Hne He]];
        [congruence|].
      pose proof (ends_ok_drop_while s He Hne) as Hd.
      destruct (blank_run R s) as [n|] eqn:Eb.
      * destruct (blank_run_some s n Eb) as (L & D & F).
        cbn [lines_ok]. cbn [Z.eqb Pos.eqb andb].
        apply IH; [exact L | | right; split; [rewrite D; exact Hd | exact F]].
        apply ends_ok_skipn; [exact He|].
        intros E. rewrite E in D. cbn in D. congruence.
      * cbn [lines_ok]. cbn [Z.eqb Pos.eqb andb].
        apply IH; [lia | exact He |].
        right. split; [exact Hd | apply blank_run_none; exact Eb].
    + cbn [lines_ok]. rewrite E10.
      apply ends_ok_tail in He.
      apply IH; [lia | |]; cbn [skipn].
      * destruct He as [[-> _]|[_ He]]; [left; reflexivity | exact He].
      * destruct (isspace R c) eqn:Ec; cbn [negb].
        2:{ left. apply orb_true_r. }
        rewrite orb_false_r.
        destruct Hl as [->|[Hd F]]; [left; reflexivity|]. right.
        cbn [drop_while take_while] in Hd, F. rewrite Ec in Hd, F.
        cbn [forallb] in F. apply andb_true_iff in F. split; tauto.
Qed.

Lemma split_cons (sep : Z) (s : str) :
  exists l ls, split sep s = l :: ls.
Proof.
  destruct s as [|c s]; cbn [split]; [eauto|].
  destruct (c =? sep); [eauto|].
  destruct (split sep s); eauto.
Qed.

Lemma lines_ok_split (s : str) :
  forall seen l ls,
    lines_ok R seen s = true -> split 10 s = l :: ls ->
    (seen = true \/ has_nonspace R l = true) /\
    forallb (has_nonspace R) ls = true.
Proof.
  induction s as [|c s IH]; intros seen l ls H E.
  - cbn in *. inversion E; subst. auto.
  - cbn [lines_ok split] in *. destruct (c =? 10).
    + apply andb_true_iff in H. destruct H as [-> H].
      inversion E; subst. split; [auto|].
      destruct (split_cons 10 s) as (l' & ls' & E').
      destruct (IH false l' ls' H E') as [[C|C] F]; [discriminate|].
      rewrite E'. cbn [forallb]. rewrite C, F. reflexivity.
    + destruct (split_cons 10 s) as (l' & ls' & E').
      rewrite E' in E. inversion E; subst.
      destruct (IH _ l' ls H E') as [C F]. split; [|exact F].
      unfold has_nonspace in *. cbn [existsb].
      destruct C as [C|C].
      * apply orb_true_iff in C. destruct C as [->| ->]; auto.
      * right. rewrite C. apply orb_true_r.
Qed.

End PrintCleanFacts.

Section Membership.

Variable R : runtime.

Lemma in_drop_while (p : Z -> bool) (s : str) (c : Z) :
  In c (drop_while p s) -> In c s.
Proof.
  destruct (drop_while_split p s) as (pre & E & _).
  intros H. rewrite E. apply in_or_app. right. exact H.
Qed.

Lemma in_strip (s : str) (c : Z) : In c (strip R s) -> In c s.
Proof.
  unfold strip. intros H.
  apply in_rev in H. apply in_drop_while in H. apply in_rev in H.
  apply in_drop_while in H. exact H.
Qed.

Lemma in_collapse_blank (s : str) (c : Z) :
  forall skip, In c (collapse_blank R skip s) -> In c s.
Proof.
  induction s as [|x s IH]; intros skip; [destruct skip; auto|].
  cbn [collapse_blank]. destruct skip as [|k].
  - destruct (x =? 10) eqn:E.
    + apply Z.eqb_eq in E. subst x.
      destruct (blank_run R s); cbn [In]; intros [H|H]; eauto.
    + cbn [In]. intros [H|H]; eauto.
  - intros H. right. eauto.
Qed.

(** A field of [split] holds characters of the string only, and never the
    separator. *)
Lemma in_split (sep : Z) (s : str) (l : str) (c : Z) :
  In l (split sep s) -> In c l -> In c s /\ c <> sep.
Proof.
  revert l. induction s as [|x s IH]; intros l; cbn [split].
  - intros [<-|[]] [].
  - destruct (x =? sep) eqn:E.
    + intros [<-|H] Hc; [destruct Hc|].
      destruct (IH l H Hc). split; [right|]; assumption.
    + destruct (split_cons sep s) as (l' & ls' & E'). rewrite E' in *.
      intros [<-|H] Hc.
      * destruct Hc as [<-|Hc].
        -- split; [left; reflexivity|]. apply Z.eqb_neq. exact E.
        -- destruct (IH l' (or_introl eq_refl) Hc). split; [right|]; assumption.
      * destruct (IH l (or_intror H) Hc). split; [right|]; assumption.
Qed.

End Membership.

(** ** More facts about the codec and the transport *)

(** Under the [ignore] handler each step emits a scalar value or skips a
    malformed subsequence. *)
Lemma decode_next_ignore_cases (b0 : Z) (t0 : bytes)
    (P : result str -> Prop) :
  P (Ok []) ->
  (forall c t, (List.length t <= List.length t0)%nat -> scalar c = true ->
               P (emit c (utf8_decode Ignore t))) ->
  (forall t, (List.length t <= List.length t0)%nat ->
             P (utf8_decode Ignore t)) ->
  P (utf8_decode Ignore (b0 :: t0)).
Proof.
  intros H1 H2 H3.
  change (utf8_decode Ignore (b0 :: t0))
    with (decode_next Ignore (utf8_decode Ignore) b0 t0).
  unfold decode_next, cont, decode_error.
  destruct (in_range 0 0x7F b0) eqn:E1.
  { apply in_range_spec in E1. apply H2; [lia|].
    apply (utf8_encode_char_1 b0 E1). }
  destruct (in_range 0xC2 0xDF b0) eqn:E2.
  { apply in_range_spec in E2.
    destruct t0 as [|b1 t1]; [exact H1|].
    destruct (in_range 0x80 0xBF b1) eqn:C1; [|apply H3; lia].
    apply in_range_spec in C1. apply H2; [cbn [List.length]; lia|].
    apply (utf8_encode_char_2 b0 b1 E2 C1). }
  destruct (in_range 0xE0 0xEF b0) eqn:E3.
  { apply in_range_spec in E3.
    destruct t0 as [|b1 t1]; [exact H1|].
    destruct (in_range (second_lo b0) (second_hi b0) b1) eqn:C1;
      [|apply H3; lia].
    destruct t1 as [|b2 t2]; [exact H1|].
    destruct (in_range 0x80 0xBF b2) eqn:C2;
      [|apply H3; cbn [List.length]; lia].
    apply in_range_spec in C2. apply H2; [cbn [List.length]; lia|].
    apply (utf8_encode_char_3 b0 b1 b2 E3 C1 C2). }
  destruct (in_range 0xF0 0xF4 b0) eqn:E4; [|apply H3; lia].
  apply in_range_spec in E4.
  destruct t0 as [|b1 t1]; [exact H1|].
  destruct (in_range (second_lo b0) (second_hi b0) b1) eqn:C1;
    [|apply H3; lia].
  destruct t1 as [|b2 t2]; [exact H1|].
  destruct (in_range 0x80 0xBF b2) eqn:C2;
    [|apply H3; cbn [List.length]; lia].
  destruct t2 as [|b3 t3]; [exact H1|].
  destruct (in_range 0x80 0xBF b3) eqn:C3;
    [|apply H3; cbn [List.length]; lia].
  apply in_range_spec in C2, C3. apply H2; [cbn [List.length]; lia|].
  apply (utf8_encode_char_4 b0 b1 b2 b3 E4 C1 C2 C3).
Qed.

(** What the [ignore] handler returns holds scalar values only. *)
Lemma utf8_decode_ignore_scalar (bs : bytes) (s : str) :
  utf8_decode Ignore bs = Ok s -> forallb scalar s = true.
Proof.
  assert (G : forall n bs s, (List.length bs <= n)%nat ->
                utf8_decode Ignore bs = Ok s -> forallb scalar s = true).
  { induction n as [|n IH]; intros l s0 Hl.
    - destruct l; [|cbn in Hl; lia]. cbn. intros H. inversion H. reflexivity.
    - destruct l as [|b0 t0]; [cbn; intros H; inversion H; reflexivity|].
      cbn [List.length] in Hl. revert s0. apply decode_next_ignore_cases.
      + intros s0 H. inversion H. reflexivity.
      + intros c t Ht Hc s0 H. apply emit_ok_inv in H.
        destruct H as (s' & Hd & ->). cbn [forallb].
        rewrite Hc, (IH t s' ltac:(lia) Hd). reflexivity.
      + intros t Ht s0 H. apply (IH t s0); [lia | exact H]. }
  apply (G (List.length bs)). lia.
Qed.

Lemma recv_all_chunks (chunks : list bytes) :
  Forall (fun chunk => chunk <> []) chunks ->
  forall later acc,
    recv_all (map Ok chunks ++ later) acc = recv_all later (acc ++ chunks).
Proof.
  induction 1 as [|chunk chunks Hc _ IH]; intros later acc.
  - rewrite app_nil_r. reflexivity.
  - cbn [map app recv_all]. destruct chunk as [|b chunk]; [congruence|].
    rewrite IH, <- app_assoc. reflexivity.
Qed.

Lemma whois_query_server_unfold (R : runtime) query server port timeout tr :
  whois_query_server R query server port timeout tr
  = (match connect_error (peer R tr (request_for query server port timeout))
     with
     | Some e => Raise e
     | None =>
       match sendall_error (peer R tr (request_for query server port timeout))
       with
       | Some e => Raise e
       | None =>
         match recv_all (incoming
                           (peer R tr (request_for query server port timeout)))
                        [] with
         | Raise e => Raise e
         | Ok data_parts => utf8_decode Ignore (List.concat data_parts)
         end
       end
     end, tr ++ [request_for query server port timeout]).
Proof.
  unfold whois_query_server, request_for.
  destruct (utf8_encode_ignore_total (query ++ CRLF)) as [bs ->].
  reflexivity.
Qed.

(** ** More facts about the lookup *)

(** Reading a field of an updated result. *)
Ltac fields :=
  cbn [query server_used raw error parsed raw_follow server_used_follow notes
       set_server_used set_raw set_error set_parsed set_raw_follow
       set_server_used_follow add_note new_result].

Section LookupEnds.

Variable R : runtime.

Lemma smart_whois_lookup_end v domain server port timeout tr out0 s tr1 :
  try_pywhois R v (strip R domain) server (new_result (strip R domain))
    = Continue out0 ->
  resolve_server R v (strip R domain) server timeout tr = (Ok s, tr1) ->
  exists r tr',
    smart_whois R v domain server port timeout tr = (Ok r, tr') /\
    lookup_end R (strip R domain) s port timeout out0 tr1 r tr'.
Proof.
  intros Hp Hr.
  rewrite (smart_whois_continue R _ _ _ _ _ _ _ _ _ Hp Hr).
  destruct (whois_query_server R (strip R domain) s port timeout tr1)
    as [[raw0|e] tr2] eqn:Hq;
    apply whois_query_server_eq in Hq; subst tr2.
  2:{ eexists _, _. split; [reflexivity|]. constructor. }
  cbv zeta.
  destruct (re_search R (py "Whois Server:") raw0) as [ref|] eqn:Es.
  2:{ eexists _, _. split; [reflexivity|]. constructor. }
  destruct (re_search_token R _ _ _ Es) as [Hne Hns].
  destruct (str_eqb ref s) eqn:Eq.
  { eexists _, _. split; [reflexivity|]. constructor. }
  apply str_eqb_neq in Eq.
  destruct (whois_query_server R (strip R domain) ref port timeout _)
    as [[raw2|e] tr3] eqn:Hq2;
    apply whois_query_server_eq in Hq2; subst tr3;
    rewrite <- app_assoc; cbn [app];
    eexists _, _; (split; [reflexivity|]); constructor; assumption.
Qed.

(** Every lookup either returns what [python-whois] gave, without a
    request, or resolves a server and ends in one of the four ways. *)
Lemma smart_whois_ends v domain server port timeout tr :
  exists r tr',
    smart_whois R v domain server port timeout tr = (Ok r, tr') /\
    ((try_pywhois R v (strip R domain) server (new_result (strip R domain))
        = Return r /\ tr' = tr) \/
     exists out0 s tr1,
       try_pywhois R v (strip R domain) server (new_result (strip R domain))
         = Continue out0 /\
       resolve_server R v (strip R domain) server timeout tr = (Ok s, tr1) /\
       lookup_end R (strip R domain) s port timeout out0 tr1 r tr').
Proof.
  destruct (try_pywhois R v (strip R domain) server
              (new_result (strip R domain))) as [out|out0] eqn:Hp.
  - exists out, tr. split; [|left; auto].
    unfold smart_whois. cbv zeta. rewrite Hp. reflexivity.
  - destruct (resolve_server_ok R v (strip R domain) server timeout tr)
      as (s & tr1 & Hr & _).
    destruct (smart_whois_lookup_end v domain server port timeout tr out0 s
                tr1 Hp Hr) as (r & tr' & E & L).
    exists r, tr'. split; [exact E|]. right. eauto 7.
Qed.

Lemma try_pywhois_return v d server out r :
  try_pywhois R v d server out = Return r ->
  HAVE_PYWHOIS R = true /\ server = None /\
  exists pd,
    pywhois_whois R d = Ok pd /\
    r = set_parsed
          (match v with
           | who_is_CLI =>
               set_raw (set_server_used out (Some (py "python-whois")))
                       (Some (dict_str R pd))
           | whois_cli => set_server_used out (Some (py "python-whois"))
           end) (Some pd).
Proof.
  unfold try_pywhois.
  destruct (HAVE_PYWHOIS R); cbn [andb]; [|discriminate].
  destruct server; cbn [is_none]; [discriminate|].
  destruct (pywhois_whois R d) as [pd|e]; [|discriminate].
  intros H. inversion H. eauto 6.
Qed.

(** Discovery, in one equation. *)
Lemma find_whois_server_for_tld_unfold tld timeout tr :
  find_whois_server_for_tld R tld timeout tr
  = (Ok match fst (whois_query_server R tld IANA 43 timeout tr) with
        | Ok resp => re_search R (py "whois:") resp
        | Raise _ => None
        end,
     tr ++ [request_for tld IANA 43 timeout]).
Proof.
  unfold find_whois_server_for_tld, bind, try_except, ret.
  change DEFAULT_WHOIS_PORT with 43.
  destruct (whois_query_server R tld IANA 43 timeout tr)
    as [[resp|e] tr'] eqn:E;
    apply whois_query_server_eq in E; subst tr'; cbn [fst]; [|reflexivity].
  destruct (re_search R (py "whois:") resp) as [g|] eqn:Es; [|reflexivity].
  destruct (re_search_token R _ _ _ Es) as [_ Hns].
  rewrite (strip_no_space R g Hns). reflexivity.
Qed.

End LookupEnds.

(** A result with a non-empty error and a non-empty raw answer, as text:
    the error is always written; the raw answer only by [who_is_CLI.py]. *)
Lemma render_text_error_and_raw v d res m w :
  error res = Some m -> m <> [] -> raw res = Some w -> w <> [] ->
  In (ErrorLine m) (render_text v d res) /\
  existsb shows_raw (render_text v d res)
  = match v with who_is_CLI => true | whois_cli => false end.
Proof.
  intros He Hm Hr Hw. unfold render_text. rewrite He, Hr.
  destruct m as [|c m]; [congruence|]. destruct w as [|c' w]; [congruence|].
  destruct (server_used_follow res) as [[|x f]|];
    destruct (raw_follow res) as [[|y g]|];
    destruct v; cbn; auto 8.
Qed.

Section LookupRequests.

Variable R : runtime.

(** One lookup keeps the requests made before it and adds at most
    three. *)
Lemma smart_whois_requests v domain server port timeout tr :
  exists r new,
    smart_whois R v domain server port timeout tr = (Ok r, tr ++ new) /\
    (List.length new <= 3)%nat.
Proof.
  destruct (smart_whois_ends R v domain server port timeout tr)
    as (r & tr' & E & [[Hp ->]|(out0 & s & tr1 & Hp & Hr & L)]).
  - exists r, []. rewrite app_nil_r. split; [exact E | cbn; lia].
  - destruct (resolve_server_ok R v (strip R domain) server timeout tr)
      as (s' & tr1' & Hr' & T).
    rewrite Hr in Hr'. inversion Hr'; subst s' tr1'.
    destruct T as [->| ->]; destruct L;
      rewrite <- ?app_assoc in E; eexists _, _;
      (split; [exact E | cbn; lia]).
Qed.

End LookupRequests.

(** ** More facts about the command line *)

Section MainFacts2.

Variable R : runtime.

Lemma smart_whois_query v domain server port timeout tr r tr' :
  smart_whois R v domain server port timeout tr = (Ok r, tr') ->
  query r = strip R domain.
Proof.
  intros E.
  destruct (smart_whois_ends R v domain server port timeout tr)
    as (r0 & tr0 & E0 & H).
  rewrite E in E0. inversion E0; subst r0 tr0.
  destruct H as [[Hp _]|(out0 & s & tr1 & Hp & Hr & L)].
  - apply try_pywhois_return in Hp. destruct Hp as (_ & _ & pd & _ & ->).
    destruct v; reflexivity.
  - destruct (try_pywhois_continue_fields R _ _ _ _ Hp) as (Hq & _).
    destruct L; fields; exact Hq.
Qed.

Lemma main_unfold v args tr :
  main R v args tr
  = match batch_domains R args with
    | Raise e =>
        (Ok ([Banner; Stderr (py "Failed to read batch file: " ++ exn_str e)],
             2), tr)
    | Ok more =>
        match arg_domains args ++ more with
        | [] =>
            (Ok ([Banner;
                  Stderr (py "No domains specified. Use --help for usage.")],
                 1), tr)
        | domains =>
            match lookup_all R v args domains [] [Banner] tr with
            | (Ok (results, out), tr') =>
                (Ok (if is_text (arg_output args) then out
                     else out ++ [JsonDump results], 0), tr')
            | (Raise e, tr') => (Raise e, tr')
            end
        end
    end.
Proof.
  unfold main, batch_domains.
  destruct (if truthy (arg_batch args) then _ else _) as [more|e];
    [|reflexivity].
  destruct (arg_domains args ++ more) as [|d ds]; [reflexivity|].
  unfold bind.
  destruct (lookup_all R v args (d :: ds) [] [Banner] tr)
    as [[[rs o]|e] t1]; reflexivity.
Qed.

(** [whois_cli.py] reads neither [args.quiet] nor [args.no_referral]. *)
Lemma lookup_all_whois_cli_flags args args' ds :
  arg_server args = arg_server args' ->
  arg_port args = arg_port args' ->
  arg_timeout args = arg_timeout args' ->
  arg_output args = arg_output args' ->
  forall results out tr,
    lookup_all R whois_cli args ds results out tr
    = lookup_all R whois_cli args' ds results out tr.
Proof.
  intros Hs Hp Ht Ho.
  induction ds as [|d ds IH]; intros results out tr; [reflexivity|].
  cbn [lookup_all]. unfold bind. rewrite <- Hs, <- Hp, <- Ht, <- Ho.
  destruct (smart_whois R whois_cli d (arg_server args) (arg_port args)
              (arg_timeout args) tr) as [[res|e] tr1]; [|reflexivity].
  apply IH.
Qed.

(** The loop issues at most three requests per domain, after those made
    before it. *)
Lemma lookup_all_requests v args ds :
  forall results out tr,
  exists new,
    snd (lookup_all R v args ds results out tr) = tr ++ new /\
    (List.length new <= 3 * List.length ds)%nat.
Proof.
  induction ds as [|d ds IH]; intros results out tr.
  - exists []. cbn. rewrite app_nil_r. auto.
  - cbn [lookup_all]. unfold bind.
    destruct (smart_whois_requests R v d (arg_server args) (arg_port args)
                (arg_timeout args) tr) as (res & new1 & E & L).
    rewrite E.
    assert (K : forall results' out',
               exists new,
                 snd (lookup_all R v args ds results' out' (tr ++ new1))
                 = tr ++ new /\
                 (List.length new <= 3 * List.length (d :: ds))%nat).
    { intros results' out'.
      destruct (IH results' out' (tr ++ new1)) as (new2 & E2 & L2).
      exists (new1 ++ new2). rewrite E2, <- app_assoc.
      split; [reflexivity|]. rewrite length_app. cbn [List.length]. lia. }
    destruct v;
      repeat match goal with
      | |- context [if ?c then _ else _] => destruct c
      end; apply K.
Qed.

End MainFacts2.

(** ** The loop of [main] and the lookups it makes *)

Section LoopFacts.

Variable R : runtime.

(** The lookups of a list of domains give one result per domain, whose
    query is the stripped domain. *)
Lemma lookups_results v server port timeout ds :
  forall tr,
    List.length (fst (lookups R v server port timeout ds tr)) = List.length ds
    /\ map query (fst (lookups R v server port timeout ds tr))
       = map (strip R) ds.
Proof.
  induction ds as [|d ds IH]; intros tr; [split; reflexivity|].
  cbn [lookups].
  destruct (smart_whois_ok R v d server port timeout tr) as (r & tr1 & E).
  rewrite E. pose proof (smart_whois_query R _ _ _ _ _ _ _ _ E) as Hq.
  destruct (IH tr1) as [L Q].
  destruct (lookups R v server port timeout ds tr1) as [rs tr'].
  cbn [fst List.length map] in *. rewrite L, Q, Hq. split; reflexivity.
Qed.

(** In JSON mode the loop writes nothing and appends, for each lookup in
    turn, what [collected] makes of its result. *)
Lemma lookup_all_json v args ds :
  is_text (arg_output args) = false ->
  forall results out tr,
    lookup_all R v args ds results out tr
    = (Ok (results
           ++ map (collected v args)
                  (fst (lookups R v (arg_server args) (arg_port args)
                          (arg_timeout args) ds tr)),
           out),
       snd (lookups R v (arg_server args) (arg_port args) (arg_timeout args)
              ds tr)).
Proof.
  intros T. induction ds as [|d ds IH]; intros results out tr.
  - cbn. rewrite app_nil_r. reflexivity.
  - cbn [lookup_all lookups]. unfold bind.
    destruct (smart_whois_ok R v d (arg_server args) (arg_port args)
                (arg_timeout args) tr) as (r & tr1 & E).
    rewrite E, T. rewrite andb_false_r.
    assert (K : lookup_all R v args ds (results ++ [collected v args r]) out
                  tr1
                = (Ok (results
                       ++ map (collected v args)
                            (r :: fst (lookups R v (arg_server args)
                                         (arg_port args) (arg_timeout args)
                                         ds tr1)),
                       out),
                   snd (lookups R v (arg_server args) (arg_port args)
                          (arg_timeout args) ds tr1))).
    { rewrite IH, <- app_assoc. reflexivity. }
    destruct (lookups R v (arg_server args) (arg_port args) (arg_timeout args)
                ds tr1) as [rs tr'].
    cbn [fst snd] in *. destruct v; exact K.
Qed.

(** In quiet text mode the loop of [who_is_CLI.py] collects nothing and
    writes, for each lookup in turn, the raw answer of its result. *)
Lemma lookup_all_quiet args ds :
  arg_quiet args = true ->
  is_text (arg_output args) = true ->
  forall results out tr,
    lookup_all R who_is_CLI args ds results out tr
    = (Ok (results,
           out ++ map (fun r => QuietRaw (raw r))
                      (fst (lookups R who_is_CLI (arg_server args)
                              (arg_port args) (arg_timeout args) ds tr))),
       snd (lookups R who_is_CLI (arg_server args) (arg_port args)
              (arg_timeout args) ds tr)).
Proof.
  intros Q T. induction ds as [|d ds IH]; intros results out tr.
  - cbn. rewrite app_nil_r. reflexivity.
  - cbn [lookup_all lookups]. unfold bind.
    destruct (smart_whois_ok R who_is_CLI d (arg_server args) (arg_port args)
                (arg_timeout args) tr) as (r & tr1 & E).
    rewrite E, Q, T. cbn [andb]. rewrite IH, <- app_assoc.
    destruct (lookups R who_is_CLI (arg_server args) (arg_port args)
                (arg_timeout args) ds tr1) as [rs tr'].
    reflexivity.
Qed.

(** What [pop_referral] changes in a result, field by field. *)
Lemma pop_referral_fields (r : LookupResult) :
  query (pop_referral r) = query r /\
  server_used (pop_referral r) = server_used r /\
  raw (pop_referral r) = raw r /\ error (pop_referral r) = error r /\
  parsed (pop_referral r) = parsed r /\ notes (pop_referral r) = notes r /\
  raw_follow (pop_referral r) = None /\
  server_used_follow (pop_referral r) = None.
Proof. repeat split. Qed.

End LoopFacts.

(** ** The referral follower *)

Section Referral.

Variable R : runtime.

(** C1 (as amended): after a successful primary query the requests issued
    are those up to the primary query followed by at most one more; the
    follow-up is issued exactly when the leftmost match of the referral
    pattern in the raw response captures a token other than the server just
    queried, and it goes to that token with the same domain, port and
    timeout.  Nothing in the follow-up's answer causes a further query. *)
Theorem referral_follows_leftmost_match
    v domain server port timeout tr out0 s tr1 raw0 tr2 :
  try_pywhois R v (strip R domain) server (new_result (strip R domain))
    = Continue out0 ->
  resolve_server R v (strip R domain) server timeout tr = (Ok s, tr1) ->
  whois_query_server R (strip R domain) s port timeout tr1 = (Ok raw0, tr2) ->
  snd (smart_whois R v domain server port timeout tr)
  = tr2 ++ match re_search R (py "Whois Server:") raw0 with
           | Some ref =>
               if str_eqb ref s then []
               else [request_for (strip R domain) ref port timeout]
           | None => []
           end.
Proof.
  intros Hp Hr Hq.
  rewrite (smart_whois_continue R _ _ _ _ _ _ _ _ _ Hp Hr), Hq. cbv zeta.
  destruct (re_search R (py "Whois Server:") raw0) as [ref|];
    [|symmetry; apply app_nil_r].
  destruct (str_eqb ref s); [symmetry; apply app_nil_r|].
  pose proof (whois_query_server_trace R (strip R domain) ref port timeout tr2)
    as T.
  destruct (whois_query_server R (strip R domain) ref port timeout tr2)
    as [[raw2|e] tr3]; exact T.
Qed.

End Referral.

Lemma referral_follows_leftmost_match_witness :
  snd (smart_whois net_referral who_is_CLI example_com (Some a_example)
         43 DEFAULT_TIMEOUT [])
  = [request_for example_com a_example 43 DEFAULT_TIMEOUT;
     request_for example_com b_example 43 DEFAULT_TIMEOUT].
Proof.
  exact (referral_follows_leftmost_match net_referral who_is_CLI example_com
           (Some a_example) 43 DEFAULT_TIMEOUT []
           (new_result example_com) a_example []
           (py "Domain: EXAMPLE.COM" ++ LF ++ py "Whois Server: b.example" ++ LF)
           [request_for example_com a_example 43 DEFAULT_TIMEOUT]
           eq_refl eq_refl eq_refl).
Defined.

(** C1 (as stated) fails: the answer of server A names A itself on its first
    line and B on its second, so a line refers elsewhere, yet no follow-up
    query is issued. *)
Lemma referral_rule_as_specified_fails :
  ~ referral_rule_as_specified net_two_lines who_is_CLI example_com
      (Some a_example) 43 DEFAULT_TIMEOUT [].
Proof.
  intros H.
  specialize (H (new_result example_com) a_example []
                (py "Whois Server: a.example" ++ LF
                 ++ py "Whois Server: b.example" ++ LF)
                [request_for example_com a_example 43 DEFAULT_TIMEOUT]
                eq_refl eq_refl eq_refl).
  destruct H as [_ H]. apply H; [|vm_compute; reflexivity].
  exists (py "Whois Server: b.example"), b_example.
  split; [vm_compute; auto|]. split; [vm_compute; reflexivity|].
  vm_compute. discriminate.
Qed.

(** ** The server resolver *)

Section Resolver.

Variable R : runtime.

(** C2 (as amended): with no override, at least two labels and no answer
    from discovery, the server is chosen from a static table: [com] and
    [net] give the Verisign server; in [who_is_CLI.py] every other last
    label gives the root registry; in [whois_cli.py] the last label [id] (or
    a domain ending in [.sch.id]) gives the PANDI server and the remaining
    ones the root registry.  The lookup, when it reaches the resolver, uses
    that server. *)
Theorem static_fallback_table v domain server timeout tr tr1 :
  no_override v server = true ->
  (2 <= List.length (split 46 (lower R (strip R domain))))%nat ->
  find_whois_server_for_tld R
    (last (split 46 (lower R (strip R domain))) []) timeout tr
    = (Ok None, tr1) ->
  let tld := last (split 46 (lower R (strip R domain))) [] in
  let chosen :=
    if str_eqb tld (py "com") || str_eqb tld (py "net") then VERISIGN
    else match v with
         | who_is_CLI => IANA
         | whois_cli =>
             if str_eqb tld (py "id")
                || endswith (strip R domain) (py ".sch.id")
             then PANDI else IANA
         end in
  resolve_server R v (strip R domain) server timeout tr = (Ok chosen, tr1) /\
  forall port out0,
    try_pywhois R v (strip R domain) server (new_result (strip R domain))
      = Continue out0 ->
    exists r later,
      smart_whois R v domain server port timeout tr
      = (Ok r, tr1 ++ request_for (strip R domain) chosen port timeout
                       :: later) /\
      server_used r = Some chosen.
Proof.
  intros Hno Hlen Hfind tld chosen.
  assert (Hr : resolve_server R v (strip R domain) server timeout tr
               = (Ok chosen, tr1)).
  { exact (resolve_server_fallback R _ _ _ _ _ _ Hno Hlen Hfind). }
  split; [exact Hr|].
  intros port out0 Hp.
  exact (smart_whois_primary R _ _ _ _ _ _ _ _ _ Hp Hr).
Qed.


(** C8: with no override and a domain without a dot, the resolver answers
    with the root registry and issues no query of its own; the lookup, when
    it reaches the resolver, sends its primary query there next. *)
Theorem short_domain_uses_root_registry v domain server timeout tr :
  no_override v server = true ->
  (List.length (split 46 (lower R (strip R domain))) < 2)%nat ->
  resolve_server R v (strip R domain) server timeout tr = (Ok IANA, tr) /\
  forall port out0,
    try_pywhois R v (strip R domain) server (new_result (strip R domain))
      = Continue out0 ->
    exists r later,
      smart_whois R v domain server port timeout tr
      = (Ok r, tr ++ request_for (strip R domain) IANA port timeout :: later)
      /\ server_used r = Some IANA.
Proof.
  intros Hno Hlen.
  assert (Hr : resolve_server R v (strip R domain) server timeout tr
               = (Ok IANA, tr)).
  { rewrite (resolve_server_no_override R _ _ _ _ Hno). unfold discover.
    assert (L : (List.length (split 46 (lower R (strip R domain))) <? 2)%nat
                = true) by (apply Nat.ltb_lt; exact Hlen).
    cbv zeta. rewrite L. reflexivity. }
  split; [exact Hr|].
  intros port out0 Hp.
  exact (smart_whois_primary R _ _ _ _ _ _ _ _ _ Hp Hr).
Qed.

(** C7: for every top-level domain, when the bootstrap query to the root
    registry raises, discovery returns no server instead of raising; the
    resolver of a lookup without override then answers with the static
    fallback, and the lookup goes on with its primary query to it. *)
Theorem discovery_failure_is_swallowed tld timeout tr e tr1 :
  whois_query_server R tld IANA DEFAULT_WHOIS_PORT timeout tr
    = (Raise e, tr1) ->
  find_whois_server_for_tld R tld timeout tr = (Ok None, tr1) /\
  forall v domain server,
    no_override v server = true ->
    (2 <= List.length (split 46 (lower R (strip R domain))))%nat ->
    last (split 46 (lower R (strip R domain))) [] = tld ->
    resolve_server R v (strip R domain) server timeout tr
      = (Ok (static_fallback v (strip R domain) tld), tr1) /\
    forall port out0,
      try_pywhois R v (strip R domain) server (new_result (strip R domain))
        = Continue out0 ->
      exists r later,
        smart_whois R v domain server port timeout tr
        = (Ok r, tr1 ++ request_for (strip R domain)
                          (static_fallback v (strip R domain) tld)
                          port timeout :: later) /\
        server_used r = Some (static_fallback v (strip R domain) tld).
Proof.
  intros Hq.
  assert (Hf : find_whois_server_for_tld R tld timeout tr = (Ok None, tr1)).
  { unfold find_whois_server_for_tld, bind, try_except. rewrite Hq.
    reflexivity. }
  split; [exact Hf|].
  intros v domain server Hno Hlen Htld.
  assert (Hr : resolve_server R v (strip R domain) server timeout tr
               = (Ok (static_fallback v (strip R domain) tld), tr1)).
  { rewrite <- Htld in Hf |- *.
    exact (resolve_server_fallback R _ _ _ _ _ _ Hno Hlen Hf). }
  split; [exact Hr|].
  intros port out0 Hp.
  exact (smart_whois_primary R _ _ _ _ _ _ _ _ _ Hp Hr).
Qed.

End Resolver.

Lemma static_fallback_table_witness :
  resolve_server net_iana_silent who_is_CLI example_com None DEFAULT_TIMEOUT []
  = (Ok VERISIGN, [request_for (py "com") IANA 43 DEFAULT_TIMEOUT]).
Proof.
  refine (proj1 (static_fallback_table net_iana_silent who_is_CLI example_com
                   None DEFAULT_TIMEOUT []
                   [request_for (py "com") IANA 43 DEFAULT_TIMEOUT]
                   eq_refl _ eq_refl)).
  vm_compute. apply le_n.
Defined.

(** C2 (as stated) fails in [whois_cli.py]: for [example.id], with the root
    registry unreachable, the server is the PANDI server and not the root
    registry. *)
Lemma static_fallback_as_specified_fails :
  ~ static_fallback_as_specified net_down whois_cli example_id None
      DEFAULT_TIMEOUT [].
Proof.
  intros H.
  specialize (H [request_for (py "id") IANA 43 DEFAULT_TIMEOUT] eq_refl).
  assert (L : (2 <= List.length (split 46 (lower net_down example_id)))%nat)
    by (vm_compute; apply le_n).
  specialize (H L eq_refl). vm_compute in H. discriminate H.
Qed.


Lemma short_domain_uses_root_registry_witness :
  resolve_server net_down whois_cli localhost None DEFAULT_TIMEOUT []
  = (Ok IANA, []).
Proof.
  refine (proj1 (short_domain_uses_root_registry net_down whois_cli localhost
                   None DEFAULT_TIMEOUT [] eq_refl _)).
  vm_compute. apply le_n.
Defined.

Lemma discovery_failure_is_swallowed_witness :
  find_whois_server_for_tld net_down (py "com") DEFAULT_TIMEOUT []
  = (Ok None, [request_for (py "com") IANA 43 DEFAULT_TIMEOUT]).
Proof.
  exact (proj1 (discovery_failure_is_swallowed net_down (py "com")
                  DEFAULT_TIMEOUT []
                  (Exn (py "[Errno 111] Connection refused"))
                  [request_for (py "com") IANA 43 DEFAULT_TIMEOUT] eq_refl)).
Defined.

(** ** Transport *)

Section Transport.

Variable R : runtime.

(** C3 (as amended): when the socket operations succeed, the call returns a
    text and does not raise, whatever octets were received; the text is the
    UTF-8 decoding of the concatenated chunks in which malformed sequences
    are dropped.  On valid UTF-8 the decoding is lossless: the text encodes
    back to the octets received, and it is the only text that does.  On any
    other input the text is strictly shorter than the decoding that would
    put U+FFFD in place of each malformed sequence. *)
Theorem whois_query_server_decodes_leniently
    query server port timeout tr data_parts :
  connect_error (peer R tr (request_for query server port timeout)) = None ->
  sendall_error (peer R tr (request_for query server port timeout)) = None ->
  recv_all (incoming (peer R tr (request_for query server port timeout))) []
    = Ok data_parts ->
  exists text,
    whois_query_server R query server port timeout tr
    = (Ok text, tr ++ [request_for query server port timeout]) /\
    utf8_decode Ignore (List.concat data_parts) = Ok text /\
    (valid_utf8 (List.concat data_parts) ->
     utf8_encode Strict text = Ok (List.concat data_parts) /\
     forall s0, forallb scalar s0 = true ->
                utf8_encode Strict s0 = Ok (List.concat data_parts) ->
                s0 = text) /\
    (~ valid_utf8 (List.concat data_parts) ->
     exists replaced,
       utf8_decode Replace (List.concat data_parts) = Ok replaced /\
       (List.length text < List.length replaced)%nat).
Proof.
  intros Hc Hs Hr.
  destruct (utf8_decode_handlers (List.concat data_parts))
    as (si & sr & Ei & Er & Hcase).
  exists si. split; [|split; [exact Ei|split]].
  - unfold whois_query_server, request_for in *.
    destruct (utf8_encode_ignore_total (query ++ CRLF)) as [bs E].
    rewrite E in *. rewrite Hc, Hs, Hr, Ei. reflexivity.
  - intros (s1 & Hs1 & He1).
    pose proof (utf8_decode_encode Ignore s1 _ Hs1 He1) as D.
    rewrite Ei in D. inversion D; subst s1. split; [exact He1|].
    intros s0 Hs0 He0.
    pose proof (utf8_decode_encode Ignore s0 _ Hs0 He0) as D0.
    rewrite Ei in D0. inversion D0. reflexivity.
  - intros Hnv. destruct Hcase as [[Es _]|[Es L]].
    + exfalso. apply Hnv. apply valid_utf8_iff. eauto.
    + exists sr. auto.
Qed.

End Transport.

Lemma whois_query_server_decodes_leniently_witness :
  exists text,
    whois_query_server net_malformed example_com a_example 43 DEFAULT_TIMEOUT []
    = (Ok text, [] ++ [request_for example_com a_example 43 DEFAULT_TIMEOUT]) /\
    utf8_decode Ignore (List.concat [[0x61; 0xFF; 0x62]]) = Ok text /\
    (valid_utf8 (List.concat [[0x61; 0xFF; 0x62]]) ->
     utf8_encode Strict text = Ok (List.concat [[0x61; 0xFF; 0x62]]) /\
     forall s0, forallb scalar s0 = true ->
                utf8_encode Strict s0 = Ok (List.concat [[0x61; 0xFF; 0x62]]) ->
                s0 = text) /\
    (~ valid_utf8 (List.concat [[0x61; 0xFF; 0x62]]) ->
     exists replaced,
       utf8_decode Replace (List.concat [[0x61; 0xFF; 0x62]]) = Ok replaced /\
       (List.length text < List.length replaced)%nat).
Proof.
  exact (whois_query_server_decodes_leniently net_malformed example_com
           a_example 43 DEFAULT_TIMEOUT [] [[0x61; 0xFF; 0x62]]
           eq_refl eq_refl eq_refl).
Defined.

(** C3 (as stated) fails: for the octets [61 FF 62] the call returns the
    two-character text [ab]; replacing the malformed octet would give three
    characters, the middle one U+FFFD. *)
Lemma decodes_with_replacement_fails :
  ~ decodes_with_replacement net_malformed example_com a_example 43
      DEFAULT_TIMEOUT [].
Proof.
  intros H.
  specialize (H [[0x61; 0xFF; 0x62]] eq_refl eq_refl eq_refl).
  vm_compute in H. discriminate H.
Qed.

(** ** The result of a lookup *)

Section Result.

Variable R : runtime.

(** C5: when the primary query raises, the lookup returns at once with
    [error] set to the failure and [raw] absent; no referral is attempted
    and nothing is retried: the requests issued are at most the discovery
    query, and the primary query once. *)
Theorem primary_failure_sets_error
    v domain server port timeout tr out0 s tr1 e tr2 :
  try_pywhois R v (strip R domain) server (new_result (strip R domain))
    = Continue out0 ->
  resolve_server R v (strip R domain) server timeout tr = (Ok s, tr1) ->
  whois_query_server R (strip R domain) s port timeout tr1 = (Raise e, tr2) ->
  exists r,
    smart_whois R v domain server port timeout tr = (Ok r, tr2) /\
    error r = Some (exn_str e) /\ raw r = None /\
    raw_follow r = None /\ server_used_follow r = None /\ notes r = [] /\
    server_used r = Some s /\
    tr2 = tr1 ++ [request_for (strip R domain) s port timeout] /\
    (tr1 = tr \/
     tr1 = tr ++ [request_for (last (split 46 (lower R (strip R domain))) [])
                              IANA DEFAULT_WHOIS_PORT timeout]).
Proof.
  intros Hp Hr Hq.
  exists (set_error (set_server_used out0 (Some s)) (Some (exn_str e))).
  destruct (try_pywhois_continue_fields R _ _ _ _ Hp)
    as (_ & Hraw & _ & Hrf & Hsf & Hn).
  rewrite (smart_whois_continue R _ _ _ _ _ _ _ _ _ Hp Hr), Hq.
  cbn. repeat split; try assumption.
  - eapply whois_query_server_eq. exact Hq.
  - destruct (resolve_server_ok R v (strip R domain) server timeout tr)
      as (s' & tr1' & E & T). rewrite Hr in E. inversion E; subst. exact T.
Qed.

(** C6 (as amended): when the follow-up query raises after a successful
    primary query, the result is the one built so far with one note added:
    [raw] holds the primary response, the referral fields stay absent, and
    the follow-up neither sets nor changes [error].  [error] is absent,
    unless [python-whois] had been tried and had failed before the primary
    query: then it still holds that earlier failure. *)
Theorem referral_failure_is_a_note
    v domain server port timeout tr out0 s tr1 raw0 tr2 ref e tr3 :
  try_pywhois R v (strip R domain) server (new_result (strip R domain))
    = Continue out0 ->
  resolve_server R v (strip R domain) server timeout tr = (Ok s, tr1) ->
  whois_query_server R (strip R domain) s port timeout tr1 = (Ok raw0, tr2) ->
  re_search R (py "Whois Server:") raw0 = Some ref ->
  ref <> s ->
  whois_query_server R (strip R domain) ref port timeout tr2
    = (Raise e, tr3) ->
  exists r,
    smart_whois R v domain server port timeout tr = (Ok r, tr3) /\
    r = add_note (set_raw (set_server_used out0 (Some s)) (Some raw0))
                 (py "follow referral failed: " ++ exn_str e) /\
    raw r = Some raw0 /\
    notes r = [py "follow referral failed: " ++ exn_str e] /\
    raw_follow r = None /\ server_used_follow r = None /\
    error r = error out0 /\
    (HAVE_PYWHOIS R = false \/ server <> None -> error r = None) /\
    (forall e0,
       HAVE_PYWHOIS R = true -> server = None ->
       pywhois_whois R (strip R domain) = Raise e0 ->
       error r = Some (py "python-whois failed: " ++ exn_str e0)).
Proof.
  intros Hp Hr Hq Hs Hne Hq2.
  eexists. split.
  - rewrite (smart_whois_continue R _ _ _ _ _ _ _ _ _ Hp Hr), Hq.
    cbv zeta. rewrite Hs.
    apply str_eqb_neq in Hne. rewrite Hne, Hq2. reflexivity.
  - destruct (try_pywhois_continue_fields R _ _ _ _ Hp)
      as (_ & Hraw & _ & Hrf & Hsf & Hn).
    cbn [raw notes raw_follow server_used_follow error add_note set_raw
         set_server_used].
    rewrite Hn. repeat split; try assumption.
    + intros Hcase. apply try_pywhois_continue in Hp.
      destruct Hp as [[-> _] | (Hh & Hsrv & _)]; [reflexivity|].
      destruct Hcase; congruence.
    + intros e0 Hh Hsrv He0. apply try_pywhois_continue in Hp.
      destruct Hp as [[_ [Hf | Hf]] | (_ & _ & e1 & He1 & ->)];
        [congruence | congruence |].
      rewrite He0 in He1. inversion He1; subst e1. reflexivity.
Qed.

(** C4 (as amended): a lookup always returns a result, and in it the raw
    response and the error are not both absent, except in [whois_cli.py]
    when [python-whois] answered, where the result carries the parsed
    fields instead.  When the primary query raises, [raw] is absent and
    [error] is set. *)
Theorem raw_or_error_present v domain server port timeout tr :
  exists r tr',
    smart_whois R v domain server port timeout tr = (Ok r, tr') /\
    (raw r <> None \/ error r <> None \/
     (v = whois_cli /\ parsed r <> None /\
      try_pywhois R v (strip R domain) server (new_result (strip R domain))
        = Return r)) /\
    (forall out0 s tr1 e tr2,
       try_pywhois R v (strip R domain) server (new_result (strip R domain))
         = Continue out0 ->
       resolve_server R v (strip R domain) server timeout tr = (Ok s, tr1) ->
       whois_query_server R (strip R domain) s port timeout tr1
         = (Raise e, tr2) ->
       raw r = None /\ error r = Some (exn_str e)).
Proof.
  destruct (try_pywhois R v (strip R domain) server
              (new_result (strip R domain))) as [out|out0] eqn:Hp.
  - exists out, tr. split; [|split].
    + unfold smart_whois. cbv zeta. rewrite Hp. reflexivity.
    + unfold try_pywhois in Hp.
      destruct (HAVE_PYWHOIS R && is_none server); [|discriminate].
      destruct (pywhois_whois R (strip R domain)) as [d|e]; [|discriminate].
      inversion Hp; subst out. destruct v.
      * left. cbn. discriminate.
      * right. right. split; [reflexivity|]. split; [cbn; discriminate|].
        reflexivity.
    + intros out0 s tr1 e tr2 H. discriminate H.
  - destruct (resolve_server_ok R v (strip R domain) server timeout tr)
      as (s & tr1 & Hr & _).
    destruct (whois_query_server R (strip R domain) s port timeout tr1)
      as [[raw0|e] tr2] eqn:Hq.
    + destruct (smart_whois_ok R v domain server port timeout tr)
        as (r & tr' & E).
      exists r, tr'. split; [exact E|]. split.
      * left.
        rewrite (smart_whois_continue R _ _ _ _ _ _ _ _ _ Hp Hr), Hq in E.
        cbv zeta in E.
        destruct (re_search R (py "Whois Server:") raw0) as [ref|];
          [destruct (str_eqb ref s);
           [|destruct (whois_query_server R (strip R domain) ref port timeout
                         tr2) as [[raw2|e2] tr3]]|];
          inversion E; subst r; cbn; discriminate.
      * intros out0' s' tr1' e' tr2' H1 H2 H3.
        inversion H1; subst out0'. rewrite Hr in H2. inversion H2; subst.
        rewrite Hq in H3. discriminate H3.
    + pose proof (smart_whois_primary_raises R v domain server port timeout tr
                    out0 s tr1 e tr2 Hp Hr Hq) as E.
      destruct (try_pywhois_continue_fields R _ _ _ _ Hp) as (_ & Hraw & _).
      eexists _, tr2. split; [exact E|]. split.
      * right. left. cbn. discriminate.
      * intros out0' s' tr1' e' tr2' H1 H2 H3.
        inversion H1; subst out0'. rewrite Hr in H2. inversion H2; subst.
        rewrite Hq in H3. inversion H3; subst. cbn. auto.
Qed.

End Result.

Lemma primary_failure_sets_error_witness :
  exists r,
    smart_whois net_down who_is_CLI example_com None 43 DEFAULT_TIMEOUT []
    = (Ok r, [request_for (py "com") IANA 43 DEFAULT_TIMEOUT;
              request_for example_com VERISIGN 43 DEFAULT_TIMEOUT]) /\
    error r = Some (py "[Errno 111] Connection refused") /\ raw r = None.
Proof.
  destruct (primary_failure_sets_error net_down who_is_CLI example_com None 43
              DEFAULT_TIMEOUT [] (new_result example_com) VERISIGN
              [request_for (py "com") IANA 43 DEFAULT_TIMEOUT]
              (Exn (py "[Errno 111] Connection refused"))
              [request_for (py "com") IANA 43 DEFAULT_TIMEOUT;
               request_for example_com VERISIGN 43 DEFAULT_TIMEOUT]
              eq_refl eq_refl eq_refl) as (r & E & He & Hraw & _).
  exists r. split; [exact E|]. split; [exact He | exact Hraw].
Defined.

Lemma referral_failure_is_a_note_witness :
  exists r,
    smart_whois net_referral_times_out whois_cli example_com (Some a_example)
      43 DEFAULT_TIMEOUT []
    = (Ok r, [request_for example_com a_example 43 DEFAULT_TIMEOUT;
              request_for example_com b_example 43 DEFAULT_TIMEOUT]) /\
    raw r = Some (py "Whois Server: b.example" ++ LF) /\
    notes r = [py "follow referral failed: timed out"] /\
    error r = None.
Proof.
  destruct (referral_failure_is_a_note net_referral_times_out whois_cli
              example_com (Some a_example) 43 DEFAULT_TIMEOUT []
              (new_result example_com) a_example []
              (py "Whois Server: b.example" ++ LF)
              [request_for example_com a_example 43 DEFAULT_TIMEOUT]
              b_example (Exn (py "timed out"))
              [request_for example_com a_example 43 DEFAULT_TIMEOUT;
               request_for example_com b_example 43 DEFAULT_TIMEOUT]
              eq_refl eq_refl eq_refl eq_refl
              ltac:(vm_compute; discriminate) eq_refl)
    as (r & E & _ & Hraw & Hn & _ & _ & _ & He & _).
  exists r. split; [exact E|]. split; [exact Hraw|]. split; [exact Hn|].
  apply He. left. reflexivity.
Defined.

(** C6 (as stated) fails: with [python-whois] installed and failing, the
    primary query answered with a referral and the follow-up timing out,
    the result carries the note and the raw answer, and its [error] is the
    earlier [python-whois failed: no match]. *)
Lemma referral_failure_as_specified_fails :
  ~ referral_failure_as_specified net_pywhois_referral_fails who_is_CLI
      example_com None 43 DEFAULT_TIMEOUT [].
Proof.
  intros H.
  specialize (H (set_error (new_result example_com)
                   (Some (py "python-whois failed: no match")))
                a_example
                [request_for (py "com") IANA 43 DEFAULT_TIMEOUT]
                (py "Whois Server: b.example" ++ LF)
                [request_for (py "com") IANA 43 DEFAULT_TIMEOUT;
                 request_for example_com a_example 43 DEFAULT_TIMEOUT]
                b_example (Exn (py "timed out"))
                [request_for (py "com") IANA 43 DEFAULT_TIMEOUT;
                 request_for example_com a_example 43 DEFAULT_TIMEOUT;
                 request_for example_com b_example 43 DEFAULT_TIMEOUT]
                eq_refl eq_refl eq_refl eq_refl
                ltac:(vm_compute; discriminate) eq_refl).
  destruct (H _ _ eq_refl) as (_ & He & _).
  vm_compute in He. discriminate He.
Qed.

Lemma raw_or_error_present_witness :
  exists r tr',
    smart_whois net_pywhois who_is_CLI example_com None 43 DEFAULT_TIMEOUT []
    = (Ok r, tr') /\
    (raw r <> None \/ error r <> None \/
     (who_is_CLI = whois_cli /\ parsed r <> None /\
      try_pywhois net_pywhois who_is_CLI (strip net_pywhois example_com) None
        (new_result (strip net_pywhois example_com)) = Return r)).
Proof.
  destruct (raw_or_error_present net_pywhois who_is_CLI example_com None 43
              DEFAULT_TIMEOUT []) as (r & tr' & E & H & _).
  exists r, tr'. split; [exact E | exact H].
Defined.

(** C4 (as stated) fails in [whois_cli.py]: when [python-whois] answers, the
    result has neither [raw] nor [error]. *)
Lemma raw_or_error_as_specified_fails :
  ~ raw_or_error_as_specified net_pywhois whois_cli example_com None 43
      DEFAULT_TIMEOUT [].
Proof.
  intros H.
  apply (H _ _ eq_refl). split; reflexivity.
Qed.

(** ** The command line *)

Section CommandLine.

Variable R : runtime.

(** What [--no-referral] does where it is read: it leaves the calls of
    [whois_query_server] as they are without it, so the follow-up query
    still happens, and in [who_is_CLI.py] nothing that [main] writes, as
    text or as JSON, shows a referral field. *)
Theorem no_referral_is_a_presentation_filter v args tr :
  arg_no_referral args = true ->
  snd (main R v args tr) = snd (main R v (set_no_referral args false) tr) /\
  (v = who_is_CLI ->
   forall out code tr',
     main R v args tr = (Ok (out, code), tr') ->
     existsb shows_referral out = false).
Proof.
  intros Hn. split.
  - unfold main. cbn [set_no_referral arg_batch arg_domains arg_output].
    destruct (if truthy (arg_batch args)
              then match arg_batch args with
                   | Some f => load_batch R f
                   | None => Ok []
                   end
              else Ok []) as [more|e]; [|reflexivity].
    destruct (arg_domains args ++ more) as [|d ds]; [reflexivity|].
    unfold bind.
    pose proof (lookup_all_trace R v args (set_no_referral args false)
                  (d :: ds) eq_refl eq_refl eq_refl [] [Banner] [] [Banner] tr)
      as T.
    destruct (lookup_all R v args (d :: ds) [] [Banner] tr)
      as [[[rs o]|e] t1];
      destruct (lookup_all R v (set_no_referral args false) (d :: ds) []
                  [Banner] tr) as [[[rs' o']|e'] t1'];
      exact T.
  - intros -> out code tr' E. unfold main in E.
    destruct (if truthy (arg_batch args)
              then match arg_batch args with
                   | Some f => load_batch R f
                   | None => Ok []
                   end
              else Ok []) as [more|e].
    2:{ inversion E; subst. reflexivity. }
    destruct (arg_domains args ++ more) as [|d ds].
    { inversion E; subst. reflexivity. }
    unfold bind in E.
    destruct (lookup_all R who_is_CLI args (d :: ds) [] [Banner] tr)
      as [[[rs o]|e] t1] eqn:L; [|discriminate].
    destruct (lookup_all_no_referral R args (d :: ds) Hn [] [Banner] tr rs o t1
                eq_refl eq_refl L) as [Hrs Ho].
    unfold ret in E. inversion E; subst.
    destruct (is_text (arg_output args)); [exact Ho|].
    rewrite existsb_app, Ho. cbn. rewrite Hrs. reflexivity.
Qed.

End CommandLine.

Lemma no_referral_is_a_presentation_filter_witness :
  snd (main net_referral who_is_CLI args_no_referral [])
  = [request_for example_com a_example 43 DEFAULT_TIMEOUT;
     request_for example_com b_example 43 DEFAULT_TIMEOUT] /\
  exists out,
    fst (main net_referral who_is_CLI args_no_referral []) = Ok (out, 0) /\
    existsb shows_referral out = false.
Proof.
  destruct (no_referral_is_a_presentation_filter net_referral who_is_CLI
              args_no_referral [] eq_refl) as [T F].
  split; [rewrite T; vm_compute; reflexivity|].
  destruct (main net_referral who_is_CLI args_no_referral [])
    as [[[out code]|e] tr'] eqn:E; [|vm_compute in E; discriminate E].
  assert (code = 0) by (vm_compute in E; inversion E; reflexivity).
  subst code. exists out. split; [reflexivity|].
  exact (F eq_refl out 0 tr' eq_refl).
Defined.

(** The specification's reading of [--no-referral] does not hold of
    [whois_cli.py]. *)
Lemma no_referral_as_specified_fails :
  ~ no_referral_as_specified net_referral whois_cli args_no_referral [].
Proof.
  intros H. destruct (H eq_refl) as [_ F].
  specialize (F _ _ _ eq_refl). vm_compute in F. discriminate F.
Qed.

(** C9: [whois_cli.py] run as [--no-referral -s a.example example.com],
    where server A refers to server B: the flag is declared but [main] does
    not read it, so the referral server and its answer are written all the
    same; [who_is_CLI.py] on the same input writes neither. *)
Theorem whois_cli_writes_referral_despite_no_referral :
  fst (main net_referral whois_cli args_no_referral [])
  = Ok ([Banner; Rule; DomainLine example_com; ServerUsed (Some a_example);
         ReferralServerUsed b_example;
         RawWhois (py "Domain: EXAMPLE.COM" ++ LF
                   ++ py "Whois Server: b.example" ++ LF);
         RawWhoisFollow (py "Whois Server: c.example" ++ LF); Rule], 0) /\
  fst (main net_referral who_is_CLI args_no_referral [])
  = Ok ([Banner; Rule; DomainLine example_com; ServerUsed (Some a_example);
         RawWhois (py "Domain: EXAMPLE.COM" ++ LF
                   ++ py "Whois Server: b.example" ++ LF);
         Rule], 0) /\
  snd (main net_referral whois_cli args_no_referral [])
  = snd (main net_referral who_is_CLI args_no_referral []).
Proof. repeat split; vm_compute; reflexivity. Qed.

(** ** Further properties: the cleaned output of [whois_cli.py] *)

Section PrintCleanProperties.

Variable R : runtime.

(** X1: when the line feed is white space (as it is in Python) and the text
    holds a character other than white space, [print_clean] prints no blank
    line: every string printed is the two-space indent and colour code
    followed by a line that is not empty and has no white space at either
    end. *)
Theorem print_clean_no_blank_line (raw : str) :
  isspace R 10 = true ->
  has_nonspace R (remove_cr raw) = true ->
  Forall (fun out => exists l, out = py "  " ++ Fore_WHITE ++ l /\
                               l <> [] /\ strip R l = l)
         (print_clean R raw).
Proof.
  intros HLF Hns.
  assert (Hraw : raw <> []) by (intros ->; discriminate Hns).
  unfold print_clean. destruct raw as [|c0 raw0]; [congruence|].
  set (t := strip R (remove_cr (c0 :: raw0))).
  assert (Ht : t <> []) by (apply strip_nonempty_iff; exact Hns).
  destruct (strip_ends R _ Ht) as [Hh Hl]. fold t in Hh, Hl.
  assert (Hok : lines_ok R false (collapse_blank R 0 t) = true).
  { apply (collapse_blank_lines_ok R HLF); cbn [skipn].
    - lia.
    - right. exact Hl.
    - right. destruct t as [|x t']; [congruence|]. cbn in Hh.
      unfold lead. cbn [drop_while take_while]. rewrite Hh.
      split; [discriminate | reflexivity]. }
  destruct (split_cons 10 (collapse_blank R 0 t)) as (l & ls & E).
  destruct (lines_ok_split R _ _ _ _ Hok E) as [[C|C] F]; [discriminate|].
  rewrite E. apply Forall_map. apply Forall_forall. intros line Hin.
  exists (strip R line). split; [reflexivity|].
  split; [|apply strip_idempotent].
  apply strip_nonempty_iff.
  destruct Hin as [<-|Hin]; [exact C|].
  rewrite forallb_forall in F. apply F. exact Hin.
Qed.

(** X2: whatever the text, [print_clean] prints neither a carriage return
    nor a line feed inside a line, and every line comes stripped. *)
Theorem print_clean_lines_are_clean (raw : str) :
  raw <> [] ->
  Forall (fun out => exists l, out = py "  " ++ Fore_WHITE ++ l /\
                               ~ In 13 l /\ ~ In 10 l /\ strip R l = l)
         (print_clean R raw).
Proof.
  intros Hraw. unfold print_clean. destruct raw as [|c0 raw0]; [congruence|].
  apply Forall_map. apply Forall_forall. intros line Hin.
  exists (strip R line). split; [reflexivity|].
  assert (K : forall c, In c (strip R line) ->
                        In c (remove_cr (c0 :: raw0)) /\ c <> 10).
  { intros c Hc. apply in_strip in Hc.
    destruct (in_split 10 _ _ c Hin Hc) as [H1 H2]. split; [|exact H2].
    apply in_collapse_blank in H1. apply in_strip in H1. exact H1. }
  split; [|split; [|apply strip_idempotent]].
  - intros H. destruct (K 13 H) as [H1 _].
    unfold remove_cr in H1. apply filter_In in H1. destruct H1 as [_ H1].
    discriminate H1.
  - intros H. destruct (K 10 H) as [_ H2]. congruence.
Qed.

End PrintCleanProperties.

Lemma print_clean_no_blank_line_witness :
  Forall (fun out => exists l, out = py "  " ++ Fore_WHITE ++ l /\
                               l <> [] /\ strip net_down l = l)
         (print_clean net_down untidy_answer).
Proof.
  apply (print_clean_no_blank_line net_down untidy_answer);
    vm_compute; reflexivity.
Defined.

Lemma print_clean_lines_are_clean_witness :
  Forall (fun out => exists l, out = py "  " ++ Fore_WHITE ++ l /\
                               ~ In 13 l /\ ~ In 10 l /\ strip net_down l = l)
         (print_clean net_down untidy_answer).
Proof.
  apply (print_clean_lines_are_clean net_down untidy_answer).
  vm_compute. discriminate.
Defined.

(** ** Further properties: transport *)

Section TransportProperties.

Variable R : runtime.

(** X3: the text returned is the decoding of the concatenation of the
    chunks received up to the first empty chunk (or the end of the stream):
    it does not depend on where the peer cuts the stream into chunks, and
    nothing is read after the empty chunk. *)
Theorem whois_query_server_joins_chunks
    query server port timeout tr chunks later :
  connect_error (peer R tr (request_for query server port timeout)) = None ->
  sendall_error (peer R tr (request_for query server port timeout)) = None ->
  incoming (peer R tr (request_for query server port timeout))
    = map Ok chunks ++ later ->
  Forall (fun chunk => chunk <> []) chunks ->
  later = [] \/ (exists unread, later = Ok [] :: unread) ->
  fst (whois_query_server R query server port timeout tr)
  = utf8_decode Ignore (List.concat chunks).
Proof.
  intros Hc Hs Hi Hne Hl.
  rewrite whois_query_server_unfold, Hc, Hs, Hi.
  rewrite (recv_all_chunks chunks Hne). cbn [fst app].
  destruct Hl as [->|[unread ->]]; reflexivity.
Qed.

(** X4: a failure of the socket at any stage is raised to the caller: a
    failing [connect], a failing [sendall], and a failing [recv] even after
    chunks were received, whose data is then lost. *)
Theorem whois_query_server_raises_socket_errors
    query server port timeout tr e :
  (connect_error (peer R tr (request_for query server port timeout)) = Some e ->
   fst (whois_query_server R query server port timeout tr) = Raise e) /\
  (connect_error (peer R tr (request_for query server port timeout)) = None ->
   sendall_error (peer R tr (request_for query server port timeout)) = Some e ->
   fst (whois_query_server R query server port timeout tr) = Raise e) /\
  (forall chunks later,
     connect_error (peer R tr (request_for query server port timeout)) = None ->
     sendall_error (peer R tr (request_for query server port timeout)) = None ->
     incoming (peer R tr (request_for query server port timeout))
       = map Ok chunks ++ Raise e :: later ->
     Forall (fun chunk => chunk <> []) chunks ->
     fst (whois_query_server R query server port timeout tr) = Raise e).
Proof.
  rewrite whois_query_server_unfold. cbn [fst].
  split; [|split].
  - intros ->. reflexivity.
  - intros -> ->. reflexivity.
  - intros chunks later -> -> -> Hne.
    rewrite (recv_all_chunks chunks Hne). reflexivity.
Qed.

(** X6: the text returned holds Unicode scalar values only, whatever the
    peer sent: it can be encoded as UTF-8 again, and decoding that encoding
    gives the same text. *)
Theorem whois_query_server_text_is_scalar query server port timeout tr text :
  fst (whois_query_server R query server port timeout tr) = Ok text ->
  forallb scalar text = true /\
  exists bs, utf8_encode Strict text = Ok bs /\
             utf8_decode Strict bs = Ok text.
Proof.
  intros H.
  assert (Hs : forallb scalar text = true).
  { rewrite whois_query_server_unfold in H. cbn [fst] in H.
    destruct (connect_error _); [discriminate|].
    destruct (sendall_error _); [discriminate|].
    destruct (recv_all _ _) as [parts|]; [|discriminate].
    apply (utf8_decode_ignore_scalar _ _ H). }
  split; [exact Hs|].
  destruct (utf8_decode_encode_app Strict Strict text [] Hs) as (bs & Hb & _).
  exists bs. split; [exact Hb|].
  apply (utf8_decode_encode Strict _ _ Hs Hb).
Qed.

End TransportProperties.

Lemma whois_query_server_joins_chunks_witness :
  fst (whois_query_server net_chunked example_com a_example 43
         DEFAULT_TIMEOUT [])
  = utf8_decode Ignore (List.concat [[0xE2; 0x82]; [0xAC]; [0x0A]]).
Proof.
  apply (whois_query_server_joins_chunks net_chunked example_com a_example 43
           DEFAULT_TIMEOUT [] [[0xE2; 0x82]; [0xAC]; [0x0A]]
           [Ok []; Ok [0x61]] eq_refl eq_refl eq_refl).
  - repeat constructor; discriminate.
  - right. exists [Ok [0x61]]. reflexivity.
Defined.

Lemma whois_query_server_raises_socket_errors_witness :
  fst (whois_query_server net_partial example_com a_example 43
         DEFAULT_TIMEOUT [])
  = Raise (Exn (py "timed out")).
Proof.
  apply (proj2 (proj2 (whois_query_server_raises_socket_errors net_partial
                         example_com a_example 43 DEFAULT_TIMEOUT []
                         (Exn (py "timed out"))))
           [[0x61]] [Ok [0x62]] eq_refl eq_refl eq_refl).
  repeat constructor; discriminate.
Defined.

Lemma whois_query_server_text_is_scalar_witness :
  forallb scalar [0x61; 0x62] = true /\
  exists bs, utf8_encode Strict [0x61; 0x62] = Ok bs /\
             utf8_decode Strict bs = Ok [0x61; 0x62].
Proof.
  exact (whois_query_server_text_is_scalar net_malformed example_com
           a_example 43 DEFAULT_TIMEOUT [] [0x61; 0x62] eq_refl).
Defined.

(** ** Further properties: discovery and the lookup *)

Section LookupProperties.

Variable R : runtime.

(** X7: discovery never raises and issues exactly one request: the
    top-level domain, sent to the root registry on port 43 with the caller's
    timeout.  Its answer is group 1 of the leftmost [whois:] match in the
    registry's reply, and nothing when the query failed; a server it returns
    is not empty and holds no white space. *)
Theorem discovery_asks_root_registry_once tld timeout tr :
  exists o,
    find_whois_server_for_tld R tld timeout tr
    = (Ok o, tr ++ [request_for tld IANA 43 timeout]) /\
    o = match fst (whois_query_server R tld IANA 43 timeout tr) with
        | Ok resp => re_search R (py "whois:") resp
        | Raise _ => None
        end /\
    (forall s, o = Some s -> s <> [] /\ no_space R s).
Proof.
  rewrite find_whois_server_for_tld_unfold.
  eexists. split; [reflexivity|]. split; [reflexivity|].
  intros s H.
  destruct (fst (whois_query_server R tld IANA 43 timeout tr)) as [resp|e];
    [|discriminate].
  apply (re_search_token R _ _ _ H).
Qed.

(** X8: when the root registry's reply names a server, a lookup without
    override uses exactly that server, before any static fallback; the
    discovery query goes to port 43 while the primary query goes to the
    caller's port. *)
Theorem discovered_server_is_used
    v domain server port timeout tr resp tr1 s out0 :
  no_override v server = true ->
  (2 <= List.length (split 46 (lower R (strip R domain))))%nat ->
  whois_query_server R (last (split 46 (lower R (strip R domain))) []) IANA 43
    timeout tr = (Ok resp, tr1) ->
  re_search R (py "whois:") resp = Some s ->
  try_pywhois R v (strip R domain) server (new_result (strip R domain))
    = Continue out0 ->
  exists r later,
    smart_whois R v domain server port timeout tr
    = (Ok r,
       tr ++ request_for (last (split 46 (lower R (strip R domain))) []) IANA
               43 timeout
          :: request_for (strip R domain) s port timeout :: later) /\
    server_used r = Some s.
Proof.
  intros Hno Hlen Hq Hs Hp.
  destruct (re_search_token R _ _ _ Hs) as [Hne Hns].
  assert (Hr : resolve_server R v (strip R domain) server timeout tr
               = (Ok s, tr1)).
  { rewrite (resolve_server_no_override R _ _ _ _ Hno). unfold discover.
    assert (L : (List.length (split 46 (lower R (strip R domain))) <? 2)%nat
                = false) by (apply Nat.ltb_ge; exact Hlen).
    cbv zeta. rewrite L. unfold bind.
    rewrite find_whois_server_for_tld_unfold, Hq. cbn [fst]. rewrite Hs.
    apply whois_query_server_eq in Hq. subst tr1.
    destruct s as [|c s']; [congruence | reflexivity]. }
  destruct (smart_whois_primary R v domain server port timeout tr out0 s tr1
              Hp Hr) as (r & later & E & Hu).
  apply whois_query_server_eq in Hq. subst tr1.
  rewrite <- app_assoc in E. exists r, later. split; [exact E | exact Hu].
Qed.

(** X9: with a server override (any string in [who_is_CLI.py], a non-empty
    one in [whois_cli.py]) neither [python-whois] nor discovery is used: the
    first request is the primary query to the override, at most one request
    follows it, and the result names the override as the server used. *)
Theorem override_skips_discovery v domain s port timeout tr :
  no_override v (Some s) = false ->
  exists r later,
    smart_whois R v domain (Some s) port timeout tr
    = (Ok r, tr ++ request_for (strip R domain) s port timeout :: later) /\
    server_used r = Some s /\ parsed r = None /\
    (List.length later <= 1)%nat.
Proof.
  intros Hno.
  assert (Hp : try_pywhois R v (strip R domain) (Some s)
                 (new_result (strip R domain))
               = Continue (new_result (strip R domain))).
  { unfold try_pywhois. cbn [is_none]. rewrite andb_false_r. reflexivity. }
  assert (Hr : resolve_server R v (strip R domain) (Some s) timeout tr
               = (Ok s, tr)).
  { unfold resolve_server. rewrite Hno. reflexivity. }
  destruct (smart_whois_lookup_end R v domain (Some s) port timeout tr _ s tr
              Hp Hr) as (r & tr' & E & L).
  destruct L; cbn [app] in E;
    eexists _, _; (split; [exact E|]); cbn; auto.
Qed.

(** X11: when [python-whois] is installed but fails, the lookup goes on, and
    after a successful primary query the result holds both the raw answer
    and the error [python-whois failed: ...].  The text output of
    [whois_cli.py] then shows the error and hides the raw answer, while
    [who_is_CLI.py] shows both. *)
Theorem failed_python_whois_hides_raw_in_whois_cli
    v domain port timeout tr e0 s tr1 raw0 tr2 shown :
  HAVE_PYWHOIS R = true ->
  pywhois_whois R (strip R domain) = Raise e0 ->
  resolve_server R v (strip R domain) None timeout tr = (Ok s, tr1) ->
  whois_query_server R (strip R domain) s port timeout tr1 = (Ok raw0, tr2) ->
  raw0 <> [] ->
  exists r tr',
    smart_whois R v domain None port timeout tr = (Ok r, tr') /\
    raw r = Some raw0 /\
    error r = Some (py "python-whois failed: " ++ exn_str e0) /\
    In (ErrorLine (py "python-whois failed: " ++ exn_str e0))
       (render_text v shown r) /\
    existsb shows_raw (render_text v shown r)
    = match v with who_is_CLI => true | whois_cli => false end.
Proof.
  intros Hh He Hr Hq Hraw.
  assert (Hp : try_pywhois R v (strip R domain) None
                 (new_result (strip R domain))
               = Continue (set_error (new_result (strip R domain))
                             (Some (py "python-whois failed: "
                                    ++ exn_str e0)))).
  { unfold try_pywhois. rewrite Hh, He. reflexivity. }
  assert (Hm : py "python-whois failed: " ++ exn_str e0 <> [])
    by (cbn; discriminate).
  destruct (smart_whois_ok R v domain None port timeout tr) as (r & tr' & E).
  exists r, tr'. split; [exact E|].
  rewrite (smart_whois_continue R _ _ _ _ _ _ _ _ _ Hp Hr), Hq in E.
  cbv zeta in E.
  assert (F : raw r = Some raw0 /\
              error r = Some (py "python-whois failed: " ++ exn_str e0)).
  { destruct (re_search R (py "Whois Server:") raw0) as [ref|];
      [destruct (str_eqb ref s);
       [|destruct (whois_query_server R (strip R domain) ref port timeout tr2)
           as [[raw2|e2] tr3]]|];
      inversion E; subst r; split; reflexivity. }
  destruct F as [Fr Fe]. split; [exact Fr|]. split; [exact Fe|].
  exact (render_text_error_and_raw v shown r _ _ Fe Hm Fr Hraw).
Qed.

(** X12: what every lookup returns, on every path: the query is the stripped
    domain; a server is always named; the two referral fields are present
    together or not at all, and only beside a raw answer and without a note;
    there is at most one note, and only beside a raw answer; a referral
    server is never empty, never holds white space and never is the server
    used; parsed fields come only from [python-whois], without error,
    referral or note. *)
Theorem smart_whois_result_invariants v domain server port timeout tr :
  exists r tr',
    smart_whois R v domain server port timeout tr = (Ok r, tr') /\
    query r = strip R domain /\
    server_used r <> None /\
    (raw_follow r = None <-> server_used_follow r = None) /\
    (raw_follow r <> None -> raw r <> None /\ notes r = []) /\
    (notes r <> [] -> raw r <> None /\ exists note, notes r = [note]) /\
    (forall f, server_used_follow r = Some f ->
               f <> [] /\ no_space R f /\ server_used r <> Some f) /\
    (parsed r <> None ->
     server_used r = Some (py "python-whois") /\ error r = None /\
     raw_follow r = None /\ notes r = []).
Proof.
  destruct (smart_whois_ends R v domain server port timeout tr)
    as (r & tr' & E & [[Hp _]|(out0 & s & tr1 & Hp & Hr & L)]);
    exists r, tr'; (split; [exact E|]).
  - apply try_pywhois_return in Hp. destruct Hp as (_ & _ & pd & _ & ->).
    destruct v; fields; repeat split; try discriminate; try congruence;
      intros; congruence.
  - destruct (try_pywhois_continue_fields R _ _ _ _ Hp)
      as (Hqy & Hraw & Hpa & Hrf & Hsf & Hn).
    destruct L; fields; rewrite ?Hqy, ?Hraw, ?Hpa, ?Hrf, ?Hsf, ?Hn;
      repeat split; try discriminate; try congruence; eauto;
      try (intros; congruence).
    all: try (eexists; reflexivity).
    all: try (intros f Hf; inversion Hf; subst; assumption).
    all: try (intros f Hf Hs; inversion Hf; subst; congruence).
Qed.

(** X13: a lookup never raises, keeps the requests made before it, and adds
    at most three: each carries the caller's timeout and is either the
    discovery query (root registry, port 43) or a query for the stripped
    domain on the caller's port.  It adds none exactly when [python-whois]
    gave the result. *)
Theorem smart_whois_issues_at_most_three_requests
    v domain server port timeout tr :
  exists r new,
    smart_whois R v domain server port timeout tr = (Ok r, tr ++ new) /\
    (List.length new <= 3)%nat /\
    Forall (fun rq =>
              rq_timeout rq = timeout /\
              ((rq_server rq = IANA /\ rq_port rq = 43) \/
               (rq_query rq = strip R domain /\ rq_port rq = port)))
           new /\
    (new = [] <-> parsed r <> None).
Proof.
  destruct (smart_whois_ends R v domain server port timeout tr)
    as (r & tr' & E & [[Hp ->]|(out0 & s & tr1 & Hp & Hr & L)]).
  - exists r, []. rewrite app_nil_r. split; [exact E|].
    split; [cbn; lia|]. split; [constructor|].
    apply try_pywhois_return in Hp. destruct Hp as (_ & _ & pd & _ & ->).
    cbn. split; [discriminate | reflexivity].
  - destruct (try_pywhois_continue_fields R _ _ _ _ Hp)
      as (_ & _ & Hpa & _).
    destruct (resolve_server_ok R v (strip R domain) server timeout tr)
      as (s' & tr1' & Hr' & T).
    rewrite Hr in Hr'. inversion Hr'; subst s' tr1'.
    assert (D : exists disc,
               tr1 = tr ++ disc /\ (List.length disc <= 1)%nat /\
               Forall (fun rq =>
                         rq_timeout rq = timeout /\
                         ((rq_server rq = IANA /\ rq_port rq = 43) \/
                          (rq_query rq = strip R domain /\ rq_port rq = port)))
                      disc).
    { destruct T as [->| ->].
      - exists []. rewrite app_nil_r. repeat split; [cbn; lia | constructor].
      - eexists [_]. repeat split; [cbn; lia|].
        constructor; [|constructor]. cbn. auto. }
    destruct D as (disc & -> & Hd & Fd).
    assert (K : forall x,
               rq_timeout (request_for (strip R domain) x port timeout)
               = timeout /\
               ((rq_server (request_for (strip R domain) x port timeout) = IANA
                 /\ rq_port (request_for (strip R domain) x port timeout) = 43)
                \/ (rq_query (request_for (strip R domain) x port timeout)
                    = strip R domain
                    /\ rq_port (request_for (strip R domain) x port timeout)
                       = port))).
    { intros x. split; [reflexivity|]. right. split; reflexivity. }
    destruct L; rewrite <- app_assoc in E; eexists _, _;
      (split; [exact E|]); rewrite ?length_app; cbn [List.length];
      (split; [lia|]);
      (split; [apply Forall_app; split; [exact Fd|];
               repeat (apply Forall_cons; [apply K|]); apply Forall_nil|]);
      fields; rewrite Hpa;
      (split; [intros Hnil; apply app_eq_nil in Hnil;
               destruct Hnil as [_ Hnil]; discriminate Hnil
              | congruence]).
Qed.

(** X14: white space around the domain does not matter: the lookup of the
    stripped domain is the lookup of the domain. *)
Theorem smart_whois_ignores_outer_white_space v domain server port timeout tr :
  smart_whois R v (strip R domain) server port timeout tr
  = smart_whois R v domain server port timeout tr.
Proof.
  unfold smart_whois. rewrite strip_idempotent. reflexivity.
Qed.

End LookupProperties.

Section LookupProperties2.

Variable R : runtime.

(** X15: the two files differ in three places only.  When [python-whois]
    does not answer, the override is not the empty string, and the domain
    neither has [id] as last label nor ends in [.sch.id], the lookups of
    [who_is_CLI.py] and [whois_cli.py] issue the same requests and return
    the same result. *)
Theorem variants_agree_outside_their_differences
    domain server port timeout tr :
  HAVE_PYWHOIS R = false \/ server <> None \/
    (exists e, pywhois_whois R (strip R domain) = Raise e) ->
  server <> Some [] ->
  last (split 46 (lower R (strip R domain))) [] <> py "id" ->
  endswith (strip R domain) (py ".sch.id") = false ->
  smart_whois R who_is_CLI domain server port timeout tr
  = smart_whois R whois_cli domain server port timeout tr.
Proof.
  intros Hpy Hsrv Hid Hsch.
  assert (P : try_pywhois R who_is_CLI (strip R domain) server
                (new_result (strip R domain))
              = try_pywhois R whois_cli (strip R domain) server
                  (new_result (strip R domain))).
  { unfold try_pywhois.
    destruct Hpy as [-> | [Hs | [e ->]]]; [reflexivity | | ].
    - destruct server; [|congruence]. cbn [is_none].
      rewrite andb_false_r. reflexivity.
    - reflexivity. }
  assert (S : static_fallback who_is_CLI (strip R domain)
                (last (split 46 (lower R (strip R domain))) [])
              = static_fallback whois_cli (strip R domain)
                  (last (split 46 (lower R (strip R domain))) [])).
  { unfold static_fallback. apply str_eqb_neq in Hid. rewrite Hid, Hsch.
    reflexivity. }
  assert (Q : resolve_server R who_is_CLI (strip R domain) server timeout tr
              = resolve_server R whois_cli (strip R domain) server timeout tr).
  { assert (D : discover R who_is_CLI (strip R domain) timeout tr
                = discover R whois_cli (strip R domain) timeout tr).
    { unfold discover. cbv zeta. destruct (_ <? 2)%nat; [reflexivity|].
      unfold bind. rewrite S. reflexivity. }
    unfold resolve_server.
    destruct server as [[|c s]|]; [congruence | reflexivity | exact D]. }
  unfold smart_whois. cbv zeta. rewrite P.
  destruct (try_pywhois R whois_cli _ _ _); [reflexivity|].
  unfold bind at 1 3. rewrite Q. reflexivity.
Qed.

(** X16: when the follow-up query succeeds, its answer is stored beside the
    primary answer, which it does not replace: the result holds both raw
    texts, names both servers, has no note, and its error is what it was
    before the primary query. *)
Theorem referral_success_keeps_both_answers
    v domain server port timeout tr out0 s tr1 raw0 tr2 ref raw2 tr3 :
  try_pywhois R v (strip R domain) server (new_result (strip R domain))
    = Continue out0 ->
  resolve_server R v (strip R domain) server timeout tr = (Ok s, tr1) ->
  whois_query_server R (strip R domain) s port timeout tr1 = (Ok raw0, tr2) ->
  re_search R (py "Whois Server:") raw0 = Some ref ->
  ref <> s ->
  whois_query_server R (strip R domain) ref port timeout tr2
    = (Ok raw2, tr3) ->
  exists r,
    smart_whois R v domain server port timeout tr = (Ok r, tr3) /\
    raw r = Some raw0 /\ raw_follow r = Some raw2 /\
    server_used r = Some s /\ server_used_follow r = Some ref /\
    notes r = [] /\ error r = error out0.
Proof.
  intros Hp Hr Hq Hs Hne Hq2.
  destruct (try_pywhois_continue_fields R _ _ _ _ Hp)
    as (_ & _ & _ & _ & _ & Hn).
  eexists. split.
  - rewrite (smart_whois_continue R _ _ _ _ _ _ _ _ _ Hp Hr), Hq.
    cbv zeta. rewrite Hs.
    apply str_eqb_neq in Hne. rewrite Hne, Hq2. reflexivity.
  - fields. auto 7.
Qed.

End LookupProperties2.

Lemma discovered_server_is_used_witness :
  exists r later,
    smart_whois net_registry whois_cli example_com None 4343 DEFAULT_TIMEOUT []
    = (Ok r,
       [] ++ request_for (py "com") IANA 43 DEFAULT_TIMEOUT
          :: request_for example_com VERISIGN 4343 DEFAULT_TIMEOUT :: later) /\
    server_used r = Some VERISIGN.
Proof.
  refine (discovered_server_is_used net_registry whois_cli example_com None
            4343 DEFAULT_TIMEOUT []
            (py "refer:        whois.verisign-grs.com" ++ LF
             ++ py "whois:        whois.verisign-grs.com" ++ LF)
            [request_for (py "com") IANA 43 DEFAULT_TIMEOUT]
            VERISIGN (new_result example_com)
            eq_refl _ eq_refl eq_refl eq_refl).
  vm_compute. apply le_n.
Defined.

Lemma override_skips_discovery_witness :
  exists r later,
    smart_whois net_referral whois_cli example_com (Some a_example) 43
      DEFAULT_TIMEOUT []
    = (Ok r, [] ++ request_for example_com a_example 43 DEFAULT_TIMEOUT
                   :: later) /\
    server_used r = Some a_example /\ parsed r = None /\
    (List.length later <= 1)%nat.
Proof.
  exact (override_skips_discovery net_referral whois_cli example_com a_example
           43 DEFAULT_TIMEOUT [] eq_refl).
Defined.

Lemma failed_python_whois_hides_raw_in_whois_cli_witness :
  exists r tr',
    smart_whois net_pywhois_fails whois_cli example_com None 43
      DEFAULT_TIMEOUT [] = (Ok r, tr') /\
    raw r = Some (py "   Domain Name: EXAMPLE.COM" ++ LF) /\
    error r = Some (py "python-whois failed: no match") /\
    In (ErrorLine (py "python-whois failed: no match"))
       (render_text whois_cli example_com r) /\
    existsb shows_raw (render_text whois_cli example_com r) = false.
Proof.
  refine (failed_python_whois_hides_raw_in_whois_cli net_pywhois_fails
            whois_cli example_com 43 DEFAULT_TIMEOUT []
            (Exn (py "no match")) VERISIGN
            [request_for (py "com") IANA 43 DEFAULT_TIMEOUT]
            (py "   Domain Name: EXAMPLE.COM" ++ LF)
            [request_for (py "com") IANA 43 DEFAULT_TIMEOUT;
             request_for example_com VERISIGN 43 DEFAULT_TIMEOUT]
            example_com eq_refl eq_refl eq_refl eq_refl _).
  vm_compute. discriminate.
Defined.

Lemma variants_agree_outside_their_differences_witness :
  smart_whois net_referral who_is_CLI example_com (Some a_example) 43
    DEFAULT_TIMEOUT []
  = smart_whois net_referral whois_cli example_com (Some a_example) 43
      DEFAULT_TIMEOUT [].
Proof.
  apply (variants_agree_outside_their_differences net_referral example_com
           (Some a_example) 43 DEFAULT_TIMEOUT []).
  - left. reflexivity.
  - vm_compute. discriminate.
  - vm_compute. discriminate.
  - reflexivity.
Defined.

Lemma referral_success_keeps_both_answers_witness :
  exists r,
    smart_whois net_referral who_is_CLI example_com (Some a_example) 43
      DEFAULT_TIMEOUT []
    = (Ok r, [request_for example_com a_example 43 DEFAULT_TIMEOUT;
              request_for example_com b_example 43 DEFAULT_TIMEOUT]) /\
    raw r = Some (py "Domain: EXAMPLE.COM" ++ LF
                  ++ py "Whois Server: b.example" ++ LF) /\
    raw_follow r = Some (py "Whois Server: c.example" ++ LF) /\
    server_used r = Some a_example /\ server_used_follow r = Some b_example /\
    notes r = [] /\ error r = error (new_result example_com).
Proof.
  refine (referral_success_keeps_both_answers net_referral who_is_CLI
            example_com (Some a_example) 43 DEFAULT_TIMEOUT []
            (new_result example_com) a_example []
            (py "Domain: EXAMPLE.COM" ++ LF
             ++ py "Whois Server: b.example" ++ LF)
            [request_for example_com a_example 43 DEFAULT_TIMEOUT]
            b_example (py "Whois Server: c.example" ++ LF)
            [request_for example_com a_example 43 DEFAULT_TIMEOUT;
             request_for example_com b_example 43 DEFAULT_TIMEOUT]
            eq_refl eq_refl eq_refl eq_refl _ eq_refl).
  vm_compute. discriminate.
Defined.

(** ** Further properties: the command line *)

Section CommandLineProperties.

Variable R : runtime.

(** X17: [load_batch] passes a read failure on; otherwise every entry it
    returns is the stripped text of a line that does not start with [#], is
    not empty and needs no further stripping, and every line that holds
    something other than white space and does not start with [#] gives an
    entry. *)
Theorem load_batch_entries path :
  (forall e, read_lines R path = Raise e -> load_batch R path = Raise e) /\
  (forall lines,
     read_lines R path = Ok lines ->
     exists ds,
       load_batch R path = Ok ds /\
       Forall (fun d => d <> [] /\ strip R d = d /\
                        exists ln, In ln lines /\ d = strip R ln /\
                                   startswith ln (py "#") = false) ds /\
       (forall ln, In ln lines -> has_nonspace R ln = true ->
                   startswith ln (py "#") = false -> In (strip R ln) ds)).
Proof.
  unfold load_batch. split.
  - intros e ->. reflexivity.
  - intros lines ->. eexists. split; [reflexivity|].
    assert (T : forall ln, truthy (Some (strip R ln)) = true
                           <-> strip R ln <> []).
    { intros ln. destruct (strip R ln); cbn; split; congruence. }
    split.
    + apply Forall_forall. intros d Hd.
      apply in_map_iff in Hd. destruct Hd as (ln & <- & Hin).
      apply filter_In in Hin. destruct Hin as [Hin Hc].
      apply andb_true_iff in Hc. destruct Hc as [Hne Hst].
      apply T in Hne. apply negb_true_iff in Hst.
      split; [exact Hne|]. split; [apply strip_idempotent|]. eauto.
    + intros ln Hin Hns Hst. apply in_map. apply filter_In.
      split; [exact Hin|]. apply andb_true_iff. split.
      * apply T. apply strip_nonempty_iff. exact Hns.
      * rewrite Hst. reflexivity.
Qed.

(** X18: an unreadable batch file stops the run before any lookup, even
    when domains were given on the command line: no request is issued, and
    a run that ends does so with status 2, having written the banner and
    the failure. *)
Theorem unreadable_batch_file_stops_the_run v args tr f e :
  arg_batch args = Some f -> f <> [] -> read_lines R f = Raise e ->
  snd (main R v args tr) = tr /\
  forall out code tr',
    main R v args tr = (Ok (out, code), tr') ->
    code = 2 /\
    out = [Banner; Stderr (py "Failed to read batch file: " ++ exn_str e)].
Proof.
  intros Hb Hf Hr.
  assert (B : batch_domains R args = Raise e).
  { unfold batch_domains, load_batch. rewrite Hb, Hr.
    destruct f as [|c f]; [congruence | reflexivity]. }
  rewrite main_unfold, B. split; [reflexivity|].
  intros out code tr' H. inversion H. auto.
Qed.

(** X19: in JSON mode the loop of [main] writes nothing and collects
    exactly one result per domain, in the order of the domains: the result
    of that domain's lookup ([who_is_CLI.py] with [--no-referral] removes
    its referral fields), whose query is the stripped domain.  A failed
    lookup does not stop the loop. *)
Theorem json_loop_collects_one_result_per_domain v args ds results out tr :
  arg_output args = json ->
  exists new tr',
    lookup_all R v args ds results out tr = (Ok (results ++ new, out), tr') /\
    new = map (collected v args)
              (fst (lookups R v (arg_server args) (arg_port args)
                      (arg_timeout args) ds tr)) /\
    tr' = snd (lookups R v (arg_server args) (arg_port args)
                 (arg_timeout args) ds tr) /\
    List.length new = List.length ds /\
    map query new = map (strip R) ds.
Proof.
  intros Ho.
  assert (T : is_text (arg_output args) = false) by (rewrite Ho; reflexivity).
  destruct (lookups_results R v (arg_server args) (arg_port args)
              (arg_timeout args) ds tr) as [L Q].
  eexists _, _. split; [apply (lookup_all_json R v args ds T)|].
  split; [reflexivity|]. split; [reflexivity|].
  split; [rewrite length_map; exact L|].
  rewrite map_map, <- Q. apply map_ext. intros r.
  unfold collected. destruct v; [destruct (arg_no_referral args)|];
    reflexivity.
Qed.

(** X20: [whois_cli.py] accepts [--quiet] and [--no-referral] but reads
    neither: setting or clearing them changes nothing in what [main] writes,
    returns or sends. *)
Theorem whois_cli_ignores_quiet_and_no_referral args q n tr :
  main R whois_cli (set_quiet (set_no_referral args n) q) tr
  = main R whois_cli args tr.
Proof.
  rewrite !main_unfold.
  change (batch_domains R (set_quiet (set_no_referral args n) q))
    with (batch_domains R args).
  cbn [set_quiet set_no_referral arg_domains arg_output].
  destruct (batch_domains R args) as [more|e]; [|reflexivity].
  destruct (arg_domains args ++ more) as [|d ds]; [reflexivity|].
  rewrite (lookup_all_whois_cli_flags R
             (set_quiet (set_no_referral args n) q) args (d :: ds)
             eq_refl eq_refl eq_refl eq_refl).
  reflexivity.
Qed.

(** X21: in quiet text mode, a run of [who_is_CLI.py] that ends has status
    0 and has written, after the banner, exactly one item per domain and
    nothing else: the raw answer in the result of that domain's lookup,
    which is Python's [None] when the lookup failed; no error, server or
    referral is written. *)
Theorem who_is_CLI_quiet_writes_raw_only args tr more out code tr' :
  arg_quiet args = true ->
  arg_output args = text ->
  batch_domains R args = Ok more ->
  arg_domains args ++ more <> [] ->
  main R who_is_CLI args tr = (Ok (out, code), tr') ->
  code = 0 /\
  out = Banner
        :: map (fun r => QuietRaw (raw r))
               (fst (lookups R who_is_CLI (arg_server args) (arg_port args)
                       (arg_timeout args) (arg_domains args ++ more) tr)) /\
  List.length out = S (List.length (arg_domains args ++ more)).
Proof.
  intros Hq Ho Hb Hne H.
  assert (T : is_text (arg_output args) = true) by (rewrite Ho; reflexivity).
  rewrite main_unfold, Hb in H.
  destruct (arg_domains args ++ more) as [|d ds] eqn:Ed; [congruence|].
  rewrite (lookup_all_quiet R args (d :: ds) Hq T), T in H.
  pose proof (proj1 (lookups_results R who_is_CLI (arg_server args)
                       (arg_port args) (arg_timeout args) (d :: ds) tr)) as L.
  inversion H; subst. split; [reflexivity|]. split; [reflexivity|].
  change (S (List.length
               (map (fun r => QuietRaw (raw r))
                    (fst (lookups R who_is_CLI (arg_server args)
                            (arg_port args) (arg_timeout args) (d :: ds) tr))))
          = S (List.length (d :: ds))).
  rewrite length_map, L. reflexivity.
Qed.

(** X22: in JSON mode the only effect of [--no-referral] on what the loop
    of [who_is_CLI.py] collects is on the two referral fields: with the flag
    and without it the loop issues the same requests and collects results
    that agree, one by one, on the query, the server used, the raw answer,
    the error, the parsed fields and the notes, and with the flag
    [raw_follow] and [server_used_follow] are absent from each. *)
Theorem no_referral_only_removes_referral_fields args ds results out tr :
  arg_output args = json ->
  exists kept popped tr',
    lookup_all R who_is_CLI (set_no_referral args false) ds results out tr
      = (Ok (results ++ kept, out), tr') /\
    lookup_all R who_is_CLI (set_no_referral args true) ds results out tr
      = (Ok (results ++ popped, out), tr') /\
    Forall2 (fun r r' =>
               query r' = query r /\ server_used r' = server_used r /\
               raw r' = raw r /\ error r' = error r /\
               parsed r' = parsed r /\ notes r' = notes r /\
               raw_follow r' = None /\ server_used_follow r' = None)
            kept popped.
Proof.
  intros Ho.
  assert (T : forall b, is_text (arg_output (set_no_referral args b)) = false)
    by (intros b; cbn; rewrite Ho; reflexivity).
  eexists _, _, _.
  split; [apply (lookup_all_json R who_is_CLI _ ds (T false))|].
  split; [apply (lookup_all_json R who_is_CLI _ ds (T true))|].
  cbn [set_no_referral arg_server arg_port arg_timeout].
  induction (fst (lookups R who_is_CLI (arg_server args) (arg_port args)
                    (arg_timeout args) ds tr)) as [|r rs IH];
    cbn [map]; constructor; [|exact IH].
  cbn [collected set_no_referral arg_no_referral].
  apply pop_referral_fields.
Qed.

(** X23: a run keeps to at most three requests per domain: whatever the
    arguments, the requests [main] issues come after those made before and
    number at most three times the domains looked up. *)
Theorem main_issues_at_most_three_requests_per_domain v args tr more :
  batch_domains R args = Ok more ->
  exists new,
    snd (main R v args tr) = tr ++ new /\
    (List.length new <= 3 * List.length (arg_domains args ++ more))%nat.
Proof.
  intros Hb. rewrite main_unfold, Hb.
  destruct (arg_domains args ++ more) as [|d ds] eqn:Ed.
  { exists []. cbn. rewrite app_nil_r. auto. }
  destruct (lookup_all_requests R v args (d :: ds) [] [Banner] tr)
    as (new & E & L).
  exists new. split; [|exact L].
  destruct (lookup_all R v args (d :: ds) [] [Banner] tr)
    as [[[rs o]|e] t1]; exact E.
Qed.

End CommandLineProperties.

Lemma load_batch_entries_witness :
  exists ds,
    load_batch net_batch (py "domains.txt") = Ok ds /\
    Forall (fun d => d <> [] /\ strip net_batch d = d /\
                     exists ln, In ln batch_lines /\ d = strip net_batch ln /\
                                startswith ln (py "#") = false) ds /\
    (forall ln, In ln batch_lines -> has_nonspace net_batch ln = true ->
                startswith ln (py "#") = false ->
                In (strip net_batch ln) ds).
Proof.
  exact (proj2 (load_batch_entries net_batch (py "domains.txt"))
           batch_lines eq_refl).
Defined.

Lemma main_issues_at_most_three_requests_per_domain_witness :
  exists new,
    snd (main net_referral who_is_CLI args_json []) = [] ++ new /\
    (List.length new <= 3 * List.length (arg_domains args_json ++ []))%nat.
Proof.
  exact (main_issues_at_most_three_requests_per_domain net_referral who_is_CLI
           args_json [] [] eq_refl).
Defined.

Lemma discovery_asks_root_registry_once_witness :
  exists o,
    find_whois_server_for_tld net_registry (py "com") DEFAULT_TIMEOUT []
    = (Ok o, [] ++ [request_for (py "com") IANA 43 DEFAULT_TIMEOUT]) /\
    o = Some VERISIGN /\ VERISIGN <> [] /\ no_space net_registry VERISIGN.
Proof.
  destruct (discovery_asks_root_registry_once net_registry (py "com")
              DEFAULT_TIMEOUT []) as (o & E & Ho & Hs).
  assert (Hv : o = Some VERISIGN) by (rewrite Ho; vm_compute; reflexivity).
  exists o. split; [exact E|]. split; [exact Hv|]. apply Hs. exact Hv.
Defined.

Lemma smart_whois_result_invariants_witness :
  exists r tr',
    smart_whois net_referral whois_cli example_com (Some a_example) 43
      DEFAULT_TIMEOUT [] = (Ok r, tr') /\
    query r = example_com /\
    (forall f, server_used_follow r = Some f ->
               f <> [] /\ no_space net_referral f /\ server_used r <> Some f).
Proof.
  destruct (smart_whois_result_invariants net_referral whois_cli example_com
              (Some a_example) 43 DEFAULT_TIMEOUT [])
    as (r & tr' & E & Hq & _ & _ & _ & _ & Hf & _).
  exists r, tr'. split; [exact E|]. split; [exact Hq | exact Hf].
Defined.

Lemma unreadable_batch_file_stops_the_run_witness :
  snd (main net_down who_is_CLI args_missing_batch []) = [] /\
  exists out code tr',
    main net_down who_is_CLI args_missing_batch [] = (Ok (out, code), tr') /\
    code = 2 /\
    out = [Banner;
           Stderr (py "Failed to read batch file: "
                   ++ py "[Errno 2] No such file or directory")].
Proof.
  destruct (unreadable_batch_file_stops_the_run net_down who_is_CLI
              args_missing_batch [] (py "missing.txt")
              (Exn (py "[Errno 2] No such file or directory")) eq_refl
              ltac:(vm_compute; discriminate) eq_refl) as [T F].
  split; [exact T|].
  destruct (main net_down who_is_CLI args_missing_batch [])
    as [[[out code]|e] tr'] eqn:E; [|vm_compute in E; discriminate E].
  exists out, code, tr'. split; [reflexivity|].
  destruct (F out code tr' eq_refl) as [Hc Ho].
  split; [exact Hc|]. rewrite Ho. vm_compute. reflexivity.
Defined.

Lemma json_loop_collects_one_result_per_domain_witness :
  exists new tr',
    lookup_all net_referral whois_cli args_json [example_com; example_id] []
      [Banner] [] = (Ok ([] ++ new, [Banner]), tr') /\
    List.length new = 2%nat /\
    map query new = [example_com; example_id].
Proof.
  destruct (json_loop_collects_one_result_per_domain net_referral whois_cli
              args_json [example_com; example_id] [] [Banner] [] eq_refl)
    as (new & tr' & E & _ & _ & L & Q).
  exists new, tr'. split; [exact E|]. split; [exact L | exact Q].
Defined.

Lemma who_is_CLI_quiet_writes_raw_only_witness :
  exists out code tr',
    main net_referral who_is_CLI args_quiet [] = (Ok (out, code), tr') /\
    code = 0 /\
    out = [Banner;
           QuietRaw (Some (py "Domain: EXAMPLE.COM" ++ LF
                           ++ py "Whois Server: b.example" ++ LF));
           QuietRaw (Some (py "Domain: EXAMPLE.COM" ++ LF
                           ++ py "Whois Server: b.example" ++ LF))].
Proof.
  destruct (main net_referral who_is_CLI args_quiet [])
    as [[[out code]|e] tr'] eqn:E; [|vm_compute in E; discriminate E].
  exists out, code, tr'. split; [reflexivity|].
  destruct (who_is_CLI_quiet_writes_raw_only net_referral args_quiet [] []
              out code tr' eq_refl eq_refl eq_refl
              ltac:(vm_compute; discriminate) E) as (Hc & Ho & _).
  split; [exact Hc|]. rewrite Ho. vm_compute. reflexivity.
Defined.

Lemma no_referral_only_removes_referral_fields_witness :
  exists kept popped tr',
    lookup_all net_referral who_is_CLI (set_no_referral args_json false)
      [example_com] [] [Banner] [] = (Ok ([] ++ kept, [Banner]), tr') /\
    lookup_all net_referral who_is_CLI (set_no_referral args_json true)
      [example_com] [] [Banner] [] = (Ok ([] ++ popped, [Banner]), tr') /\
    existsb has_referral kept = true /\
    existsb has_referral popped = false /\
    map raw popped = map raw kept.
Proof.
  destruct (no_referral_only_removes_referral_fields net_referral args_json
              [example_com] [] [Banner] [] eq_refl)
    as (kept & popped & tr' & E1 & E2 & F).
  exists kept, popped, tr'. split; [exact E1|]. split; [exact E2|].
  vm_compute in E1, E2. inversion E1; subst kept. inversion E2; subst popped.
  vm_compute. auto.
Defined.

(** ** The scenarios of the specification, evaluated *)

(** [example.com] without override: the root registry is asked for [com];
    when its answer has no [whois:] line the Verisign server is used. *)
Example scenario_discovery_then_fallback :
  resolve_server net_iana_silent who_is_CLI example_com None DEFAULT_TIMEOUT []
  = (Ok VERISIGN, [request_for (py "com") IANA 43 DEFAULT_TIMEOUT]) /\
  resolve_server net_registry whois_cli example_com None DEFAULT_TIMEOUT []
  = (Ok VERISIGN, [request_for (py "com") IANA 43 DEFAULT_TIMEOUT]).
Proof. split; vm_compute; reflexivity. Qed.

(** A batch file with a comment, a blank line and one domain. *)
Example scenario_batch_file :
  load_batch (with_file net_down (py "domains.txt")
                [py "# comment" ++ LF; LF; py "example.org" ++ LF])
             (py "domains.txt")
  = Ok [py "example.org"].
Proof. vm_compute. reflexivity. Qed.

(** Server A answers with a referral to server B: both answers are kept. *)
Example scenario_referral :
  exists r tr,
    smart_whois net_referral whois_cli example_com (Some a_example) 43
      DEFAULT_TIMEOUT [] = (Ok r, tr) /\
    raw r = Some (py "Domain: EXAMPLE.COM" ++ LF
                  ++ py "Whois Server: b.example" ++ LF) /\
    raw_follow r = Some (py "Whois Server: c.example" ++ LF) /\
    server_used_follow r = Some b_example /\
    List.length tr = 2%nat.
Proof. eexists _, _. split; [vm_compute; reflexivity|]. vm_compute. auto. Qed.

(** The primary query fails: the error is written and the exit status is
    0. *)
Example scenario_primary_failure :
  fst (main net_down who_is_CLI
         {| arg_domains := [example_com]; arg_server := Some a_example;
            arg_port := 43; arg_timeout := DEFAULT_TIMEOUT;
            arg_output := text; arg_batch := None; arg_quiet := false;
            arg_no_referral := false |} [])
  = Ok ([Banner; Rule; DomainLine example_com; ServerUsed (Some a_example);
         ErrorLine (py "[Errno 111] Connection refused"); Rule], 0).
Proof. vm_compute. reflexivity. Qed.

(** No domain at all: exit status 1; an unreadable batch file: exit status
    2. *)
Example scenario_exit_codes :
  (exists out,
     fst (main net_down whois_cli
            {| arg_domains := []; arg_server := None; arg_port := 43;
               arg_timeout := DEFAULT_TIMEOUT; arg_output := json;
               arg_batch := None; arg_quiet := false;
               arg_no_referral := false |} []) = Ok (out, 1)) /\
  (exists out,
     fst (main net_down whois_cli
            {| arg_domains := [example_com]; arg_server := None;
               arg_port := 43; arg_timeout := DEFAULT_TIMEOUT;
               arg_output := json; arg_batch := Some (py "missing.txt");
               arg_quiet := false; arg_no_referral := false |} [])
     = Ok (out, 2)).
Proof. split; eexists; vm_compute; reflexivity. Qed.

(** A referral field left empty by the registry: the white space skipped
    after the colon includes the line break, and the token is taken from
    the next line. *)
Example referral_pattern_spans_lines :
  re_search net_down (py "Whois Server:")
    (py "Registrar WHOIS Server:" ++ LF ++ py "Registrar URL: http://x" ++ LF)
  = Some (py "Registrar").
Proof. vm_compute. reflexivity. Qed.
